(** * Session state of the DeepAgent financial system

    A shallow embedding of [agent_state.py] (the session state and its
    helper functions) and of the delegation tool [task] of
    [sub_agent_delegation.py], followed by the properties of the
    specification that concern them.

    Conventions of the embedding.
    - A Python [str] is a [string]; [len] is [String.length].
    - A [Dict[str, X]] held in the state is a [gmap string X]: the modelled
      functions only look keys up, assign and delete them.  The module-level
      dict [SUB_AGENTS] is an association list in insertion order, because
      [task] renders [list(SUB_AGENTS.keys())].
    - The state is a value: every function takes the state it mutates and
      returns the state it leaves behind, together with its Python return
      value when that is not the state itself.  No modelled function mutates
      an object it was handed by its caller, and every record it stores is
      freshly built, so no two parts of a state built by these functions
      alias each other.
    - [datetime.now()] is an argument: each function takes one [datetime]
      per clock read it performs, in the order of the reads.
    - Console output ([print]) is not modelled. *)

From Stdlib Require Import ZArith Lia Ascii.
From stdpp Require Import gmap strings list fin_maps pretty.

Local Open Scope Z_scope.
Set Warnings "-register-all".

(** ** Python values *)

(** The values the code stores under [Any]: metadata, cached payloads and
    sub-agent results are dictionaries of these. *)
Inductive value : Type :=
| VNone
| VBool (b : bool)
| VInt (z : Z)
| VStr (s : string)
| VList (l : list value)
| VDict (d : list (string * value)).

Abbreviation pydict := (gmap string value).

(** Truth value of an [Optional[Dict]] in an [if]: [None] and the empty
    dictionary are false. *)
Definition truthy (d : option pydict) : bool :=
  match d with
  | Some m => negb (bool_decide (m = ∅))
  | None => false
  end.

(** [target.update(patch)]: every key of [patch] is assigned in [target]. *)
Definition dict_update (target patch : pydict) : pydict := patch ∪ target.

(** ** Naive datetimes *)

(** A [datetime] is the number of microseconds since 0001-01-01T00:00:00,
    the smallest value of the type; the largest is 9999-12-31T23:59:59.999999
    (proleptic Gregorian ordinal 3652059). *)
Definition datetime : Type := Z.

Definition datetime_range : Z := 3652059 * 86400 * 1000000.

Definition in_datetime_range (d : Z) : bool :=
  bool_decide (0 <= d) && bool_decide (d < datetime_range).

(** [now + timedelta(minutes=m)]; [None] stands for the [OverflowError] that
    Python raises when the delta or the sum leaves the range of the type. *)
Definition add_minutes (now : datetime) (m : Z) : option datetime :=
  let r := now + m * 60000000 in
  if in_datetime_range r then Some r else None.

(** [d.isoformat()].  The text is in one-to-one correspondence with the
    instant ([datetime.fromisoformat] inverts it), so a stored timestamp is
    kept as the instant it spells. *)
Definition isotime : Type := datetime.
Definition isoformat (d : datetime) : isotime := d.
Definition fromisoformat (t : isotime) : datetime := t.

(** Two-digit, zero-padded decimal field of [strftime]. *)
Definition pad2 (n : Z) : string :=
  if bool_decide (n < 10) then "0" +:+ pretty n else pretty n.

Definition second_of_day (d : datetime) : Z := (d `div` 1000000) `mod` 86400.
Definition day_number (d : datetime) : Z := d `div` 86400000000.

(** [d.strftime('%H%M%S')] *)
Definition strftime_HMS (d : datetime) : string :=
  let s := second_of_day d in
  pad2 (s `div` 3600) +:+ pad2 ((s `div` 60) `mod` 60) +:+ pad2 (s `mod` 60).

(** Year, month and day of a day number counted from 0001-01-01, by the
    usual 400-year era decomposition with the year starting in March. *)
Definition civil_from_days (n : Z) : Z * Z * Z :=
  let z := n + 306 in
  let era := z `div` 146097 in
  let doe := z - era * 146097 in
  let yoe := (doe - doe `div` 1460 + doe `div` 36524 - doe `div` 146096) `div` 365 in
  let doy := doe - (365 * yoe + yoe `div` 4 - yoe `div` 100) in
  let mp := (5 * doy + 2) `div` 153 in
  let d := doy - (153 * mp + 2) `div` 5 + 1 in
  let m := if bool_decide (mp < 10) then mp + 3 else mp - 9 in
  let y := yoe + era * 400 + (if bool_decide (m <= 2) then 1 else 0) in
  (y, m, d).

(** [d.strftime('%Y%m%d_%H%M%S')]; the year is printed without padding, as
    the C library does for years below 1000. *)
Definition strftime_Ymd_HMS (d : datetime) : string :=
  let '(y, m, dd) := civil_from_days (day_number d) in
  pretty y +:+ pad2 m +:+ pad2 dd +:+ "_" +:+ strftime_HMS d.

(** ** Records of the state *)

Inductive TodoStatus : Set :=
  TodoPending | TodoInProgress | TodoCompleted | TodoCancelled.

Inductive Priority : Set := Low | Medium | High | Urgent.

Inductive FileType : Set := File | Directory.

Inductive SubAgentStatus : Set :=
  AgentIdle | AgentWorking | AgentCompleted | AgentError.

Inductive AgentStatus : Set :=
| Initializing | Planning | Executing | Delegating | Summarizing
| SessionCompleted | SessionError.

Module TodoItem.
Record t : Type := mk {
  id : string;
  task : string;
  status : TodoStatus;
  created_at : isotime;
  updated_at : isotime;
  priority : Priority;
  assigned_agent : option string;
  dependencies : list string;
  metadata : pydict
}.
End TodoItem.
Abbreviation TodoItem := TodoItem.t.

Module FileSystemItem.
Record t : Type := mk {
  name : string;
  content : string;
  type : FileType;
  created_at : isotime;
  updated_at : isotime;
  size : nat;
  metadata : pydict
}.
End FileSystemItem.
Abbreviation FileSystemItem := FileSystemItem.t.

Module FinancialDataCache.
Record t : Type := mk {
  symbol : string;
  data_type : string;
  data : pydict;
  timestamp : isotime;
  expiry : isotime
}.
End FinancialDataCache.
Abbreviation FinancialDataCache := FinancialDataCache.t.

Module SubAgentInfo.
Record t : Type := mk {
  name : string;
  description : string;
  tools : list string;
  status : SubAgentStatus;
  created_at : isotime;
  last_active : isotime;
  results : option pydict
}.
End SubAgentInfo.
Abbreviation SubAgentInfo := SubAgentInfo.t.

(** Entries of [file_operations_log]: the dictionaries
    [{"operation": "write", "filename", "timestamp", "size"}] and
    [{"operation": "read", "filename", "timestamp"}]. *)
Inductive FileOperation : Type :=
| OpWrite (filename : string) (time : isotime) (size : nat)
| OpRead (filename : string) (time : isotime).

Inductive BaseMessage : Type :=
| HumanMessage (content : string)
| AIMessage (content : string)
| SystemMessage (content : string).

Record DeepAgentState : Type := mkState {
  messages : list BaseMessage;
  todos : list TodoItem;
  current_task : option string;
  planning_context : pydict;
  files : gmap string FileSystemItem;
  current_directory : string;
  file_operations_log : list FileOperation;
  sub_agents : gmap string SubAgentInfo;
  active_sub_agents : list string;
  delegation_history : list pydict;
  financial_cache : gmap string FinancialDataCache;
  watchlist : list string;
  portfolio : gmap string pydict;
  market_data : pydict;
  research_context : pydict;
  analysis_results : list pydict;
  web_search_results : list pydict;
  iteration_count : Z;
  max_iterations : Z;
  start_time : isotime;
  last_activity : isotime;
  agent_status : AgentStatus;
  session_id : string;
  user_preferences : pydict;
  conversation_context : pydict
}.

(** Assignment to one key of the state, [state["todos"] = v] and the like. *)
Definition set_todos (v : list TodoItem) (s : DeepAgentState) : DeepAgentState :=
  mkState (messages s) v (current_task s) (planning_context s)
    (files s) (current_directory s) (file_operations_log s)
    (sub_agents s) (active_sub_agents s) (delegation_history s)
    (financial_cache s) (watchlist s) (portfolio s) (market_data s)
    (research_context s) (analysis_results s) (web_search_results s)
    (iteration_count s) (max_iterations s) (start_time s) (last_activity s)
    (agent_status s) (session_id s) (user_preferences s) (conversation_context s).

Definition set_files (v : gmap string FileSystemItem) (s : DeepAgentState)
  : DeepAgentState :=
  mkState (messages s) (todos s) (current_task s) (planning_context s)
    v (current_directory s) (file_operations_log s)
    (sub_agents s) (active_sub_agents s) (delegation_history s)
    (financial_cache s) (watchlist s) (portfolio s) (market_data s)
    (research_context s) (analysis_results s) (web_search_results s)
    (iteration_count s) (max_iterations s) (start_time s) (last_activity s)
    (agent_status s) (session_id s) (user_preferences s) (conversation_context s).

Definition set_file_operations_log (v : list FileOperation) (s : DeepAgentState)
  : DeepAgentState :=
  mkState (messages s) (todos s) (current_task s) (planning_context s)
    (files s) (current_directory s) v
    (sub_agents s) (active_sub_agents s) (delegation_history s)
    (financial_cache s) (watchlist s) (portfolio s) (market_data s)
    (research_context s) (analysis_results s) (web_search_results s)
    (iteration_count s) (max_iterations s) (start_time s) (last_activity s)
    (agent_status s) (session_id s) (user_preferences s) (conversation_context s).

Definition set_sub_agents (v : gmap string SubAgentInfo) (s : DeepAgentState)
  : DeepAgentState :=
  mkState (messages s) (todos s) (current_task s) (planning_context s)
    (files s) (current_directory s) (file_operations_log s)
    v (active_sub_agents s) (delegation_history s)
    (financial_cache s) (watchlist s) (portfolio s) (market_data s)
    (research_context s) (analysis_results s) (web_search_results s)
    (iteration_count s) (max_iterations s) (start_time s) (last_activity s)
    (agent_status s) (session_id s) (user_preferences s) (conversation_context s).

Definition set_financial_cache (v : gmap string FinancialDataCache)
    (s : DeepAgentState) : DeepAgentState :=
  mkState (messages s) (todos s) (current_task s) (planning_context s)
    (files s) (current_directory s) (file_operations_log s)
    (sub_agents s) (active_sub_agents s) (delegation_history s)
    v (watchlist s) (portfolio s) (market_data s)
    (research_context s) (analysis_results s) (web_search_results s)
    (iteration_count s) (max_iterations s) (start_time s) (last_activity s)
    (agent_status s) (session_id s) (user_preferences s) (conversation_context s).

Definition set_last_activity (v : isotime) (s : DeepAgentState)
  : DeepAgentState :=
  mkState (messages s) (todos s) (current_task s) (planning_context s)
    (files s) (current_directory s) (file_operations_log s)
    (sub_agents s) (active_sub_agents s) (delegation_history s)
    (financial_cache s) (watchlist s) (portfolio s) (market_data s)
    (research_context s) (analysis_results s) (web_search_results s)
    (iteration_count s) (max_iterations s) (start_time s) v
    (agent_status s) (session_id s) (user_preferences s) (conversation_context s).

(** ** Helper functions for state management ([agent_state.py]) *)

(** [create_initial_state(user_message, session_id=None, max_iterations=50)].
    The first clock read happens only when no session id is given ([None] or
    the empty string). *)
Definition create_initial_state (user_message : string)
    (session_id : option string) (max_iterations : Z)
    (now_id now : datetime) : DeepAgentState :=
  let session_id :=
    match session_id with
    | Some s => if bool_decide (s = "") then "session_" +:+ strftime_Ymd_HMS now_id else s
    | None => "session_" +:+ strftime_Ymd_HMS now_id
    end in
  let now := isoformat now in
  {| messages := [HumanMessage user_message];
     todos := [];
     current_task := None;
     planning_context := ∅;
     files := ∅;
     current_directory := "/";
     file_operations_log := [];
     sub_agents := ∅;
     active_sub_agents := [];
     delegation_history := [];
     financial_cache := ∅;
     watchlist := [];
     portfolio := ∅;
     market_data := ∅;
     research_context := ∅;
     analysis_results := [];
     web_search_results := [];
     iteration_count := 0;
     max_iterations := max_iterations;
     start_time := now;
     last_activity := now;
     agent_status := Initializing;
     session_id := session_id;
     user_preferences := ∅;
     conversation_context := ∅ |}.

(** The id [f"todo_{len(state['todos']) + 1}_{datetime.now().strftime('%H%M%S')}"]. *)
Definition new_todo_id (state : DeepAgentState) (now : datetime) : string :=
  "todo_" +:+ pretty (length (todos state) + 1)%nat +:+ "_" +:+ strftime_HMS now.

(** [add_todo_item(state, task, priority="medium", assigned_agent=None,
    dependencies=None)]; [now] and [now_id] are its two clock reads. *)
Definition add_todo_item (state : DeepAgentState) (task : string)
    (priority : Priority) (assigned_agent : option string)
    (dependencies : option (list string)) (now now_id : datetime)
    : DeepAgentState :=
  let dependencies := default [] dependencies in
  let now := isoformat now in
  let todo_id := new_todo_id state now_id in
  let new_todo :=
    {| TodoItem.id := todo_id;
       TodoItem.task := task;
       TodoItem.status := TodoPending;
       TodoItem.created_at := now;
       TodoItem.updated_at := now;
       TodoItem.priority := priority;
       TodoItem.assigned_agent := assigned_agent;
       TodoItem.dependencies := dependencies;
       TodoItem.metadata := ∅ |} in
  let state := set_todos (todos state ++ [new_todo]) state in
  set_last_activity now state.

(** The three assignments made to the todo whose id matches. *)
Definition apply_todo_update (status : TodoStatus) (metadata : option pydict)
    (now : isotime) (todo : TodoItem) : TodoItem :=
  {| TodoItem.id := TodoItem.id todo;
     TodoItem.task := TodoItem.task todo;
     TodoItem.status := status;
     TodoItem.created_at := TodoItem.created_at todo;
     TodoItem.updated_at := now;
     TodoItem.priority := TodoItem.priority todo;
     TodoItem.assigned_agent := TodoItem.assigned_agent todo;
     TodoItem.dependencies := TodoItem.dependencies todo;
     TodoItem.metadata :=
       if truthy metadata
       then dict_update (TodoItem.metadata todo) (default ∅ metadata)
       else TodoItem.metadata todo |}.

(** The loop [for todo in state["todos"]: if todo["id"] == todo_id: ...; break]. *)
Fixpoint update_first_match (todo_id : string) (status : TodoStatus)
    (metadata : option pydict) (now : isotime) (l : list TodoItem)
    : list TodoItem :=
  match l with
  | [] => []
  | todo :: rest =>
      if bool_decide (TodoItem.id todo = todo_id)
      then apply_todo_update status metadata now todo :: rest
      else todo :: update_first_match todo_id status metadata now rest
  end.

(** [update_todo_status(state, todo_id, status, metadata=None)] *)
Definition update_todo_status (state : DeepAgentState) (todo_id : string)
    (status : TodoStatus) (metadata : option pydict) (now : datetime)
    : DeepAgentState :=
  let now := isoformat now in
  let state :=
    set_todos (update_first_match todo_id status metadata now (todos state)) state in
  set_last_activity now state.

(** [write_file(state, filename, content, file_type="file")] *)
Definition write_file (state : DeepAgentState) (filename content : string)
    (file_type : FileType) (now : datetime) : DeepAgentState :=
  let now := isoformat now in
  let file_item :=
    {| FileSystemItem.name := filename;
       FileSystemItem.content := content;
       FileSystemItem.type := file_type;
       FileSystemItem.created_at := now;
       FileSystemItem.updated_at := now;
       FileSystemItem.size := String.length content;
       FileSystemItem.metadata := ∅ |} in
  let state := set_files (<[filename := file_item]> (files state)) state in
  let operation := OpWrite filename now (String.length content) in
  let state :=
    set_file_operations_log (file_operations_log state ++ [operation]) state in
  set_last_activity now state.

(** [read_file(state, filename)].  The stored item is a dictionary of seven
    keys, hence true in the [if]; the clock is read only on that branch. *)
Definition read_file (state : DeepAgentState) (filename : string)
    (now : datetime) : option string * DeepAgentState :=
  match files state !! filename with
  | Some file_item =>
      let now := isoformat now in
      let operation := OpRead filename now in
      let state :=
        set_file_operations_log (file_operations_log state ++ [operation]) state in
      (Some (FileSystemItem.content file_item), state)
  | None => (None, state)
  end.

(** The key [f"{symbol}_{data_type}"]. *)
Definition cache_key (symbol data_type : string) : string :=
  symbol +:+ "_" +:+ data_type.

(** [cache_financial_data(state, symbol, data_type, data, expiry_minutes=15)].
    [None] is the [OverflowError] of the date arithmetic, raised before the
    state is touched. *)
Definition cache_financial_data (state : DeepAgentState)
    (symbol data_type : string) (data : pydict) (expiry_minutes : Z)
    (now : datetime) : option DeepAgentState :=
  match add_minutes now expiry_minutes with
  | None => None
  | Some expiry =>
      let key := cache_key symbol data_type in
      let cache_item :=
        {| FinancialDataCache.symbol := symbol;
           FinancialDataCache.data_type := data_type;
           FinancialDataCache.data := data;
           FinancialDataCache.timestamp := isoformat now;
           FinancialDataCache.expiry := isoformat expiry |} in
      let state :=
        set_financial_cache (<[key := cache_item]> (financial_cache state)) state in
      Some (set_last_activity (isoformat now) state)
  end.

(** [get_cached_financial_data(state, symbol, data_type)].  A stored item is
    a dictionary of five keys, hence true in the [if]. *)
Definition get_cached_financial_data (state : DeepAgentState)
    (symbol data_type : string) (now : datetime)
    : option pydict * DeepAgentState :=
  let key := cache_key symbol data_type in
  match financial_cache state !! key with
  | Some cache_item =>
      let expiry := fromisoformat (FinancialDataCache.expiry cache_item) in
      if bool_decide (now < expiry)
      then (Some (FinancialDataCache.data cache_item), state)
      else (None, set_financial_cache (delete key (financial_cache state)) state)
  | None => (None, state)
  end.

(** [register_sub_agent(state, name, description, tools)] *)
Definition register_sub_agent (state : DeepAgentState)
    (name description : string) (tools : list string) (now : datetime)
    : DeepAgentState :=
  let now := isoformat now in
  let sub_agent :=
    {| SubAgentInfo.name := name;
       SubAgentInfo.description := description;
       SubAgentInfo.tools := tools;
       SubAgentInfo.status := AgentIdle;
       SubAgentInfo.created_at := now;
       SubAgentInfo.last_active := now;
       SubAgentInfo.results := None |} in
  let state := set_sub_agents (<[name := sub_agent]> (sub_agents state)) state in
  set_last_activity now state.

(** The assignments made to the record of a known sub-agent. *)
Definition apply_agent_update (status : SubAgentStatus)
    (results : option pydict) (now : isotime) (info : SubAgentInfo)
    : SubAgentInfo :=
  {| SubAgentInfo.name := SubAgentInfo.name info;
     SubAgentInfo.description := SubAgentInfo.description info;
     SubAgentInfo.tools := SubAgentInfo.tools info;
     SubAgentInfo.status := status;
     SubAgentInfo.created_at := SubAgentInfo.created_at info;
     SubAgentInfo.last_active := now;
     SubAgentInfo.results :=
       if truthy results then results else SubAgentInfo.results info |}.

(** [update_sub_agent_status(state, agent_name, status, results=None)] *)
Definition update_sub_agent_status (state : DeepAgentState)
    (agent_name : string) (status : SubAgentStatus)
    (results : option pydict) (now : datetime) : DeepAgentState :=
  let now := isoformat now in
  let state :=
    match sub_agents state !! agent_name with
    | Some info =>
        set_sub_agents
          (<[agent_name := apply_agent_update status results now info]>
             (sub_agents state)) state
    | None => state
    end in
  set_last_activity now state.

(** The issue texts of [validate_state]. *)
Definition iteration_issue (count limit : Z) : string :=
  "Iteration limit reached: " +:+ pretty count +:+ "/" +:+ pretty limit.

Definition orphan_issue (todo_id dep_id : string) : string :=
  "TODO " +:+ todo_id +:+ " has orphaned dependency: " +:+ dep_id.

Definition inactive_issue (agent_name : string) : string :=
  "Active sub-agent " +:+ agent_name +:+ " not found in sub_agents registry".

(** [validate_state(state)]: the list of issues, in the order the three
    checks append them.  The state is only read. *)
Definition validate_state (state : DeepAgentState)
    : list string * DeepAgentState :=
  let issues : list string := [] in
  let issues :=
    if bool_decide (iteration_count state >= max_iterations state)
    then issues ++ [iteration_issue (iteration_count state) (max_iterations state)]
    else issues in
  let todo_ids : gset string := list_to_set (TodoItem.id <$> todos state) in
  let issues :=
    issues ++
    flat_map (λ todo,
      flat_map (λ dep_id,
        if bool_decide (dep_id ∉ todo_ids)
        then [orphan_issue (TodoItem.id todo) dep_id]
        else [])
        (TodoItem.dependencies todo))
      (todos state) in
  let issues :=
    issues ++
    flat_map (λ agent_name,
      match sub_agents state !! agent_name with
      | None => [inactive_issue agent_name]
      | Some _ => []
      end)
      (active_sub_agents state) in
  (issues, state).

(** ** Delegation ([sub_agent_delegation.py]) *)

(** A message of a sub-agent's answer: [content] is [None] when the object
    has no attribute of that name, and otherwise the text the f-string
    prints for it. *)
Record AgentMessage : Type := { content : option string }.

(** What [sub_agent.invoke] hands back. *)
Inductive InvokeResult : Type :=
| ResultFalsy                                   (* None, or an empty mapping *)
| ResultDict (msgs : option (list AgentMessage)).
                         (* a non-empty mapping; its "messages" entry if any *)

Inductive InvokeOutcome : Type :=
| Returned (result : InvokeResult)
| Raised (message : string).                    (* an exception e, as str(e) *)

(** A compiled sub-agent, seen through its [invoke] method applied to
    [{"messages": [HumanMessage(content=task_description)]}].  The agents are
    built over the financial tools only and hold no reference to a session
    state or to [SUB_AGENTS]. *)
Definition SubAgent : Type := string → InvokeOutcome.

(** The four strings [task] can return, by the f-string that builds them:
    - [NotFound]: "Sub-agent '{agent_name}' not found. Available agents:
      {list(SUB_AGENTS.keys())}";
    - [SubAgentResults]: "Sub-agent '{agent_name}' results:\n{content}";
    - [TaskDelegated]: "Task delegated to {agent_name} - check detailed
      output above";
    - [TaskError]: "Error in sub-agent {agent_name}: {str(e)}". *)
Inductive TaskReturn : Type :=
| NotFound (agent_name : string) (available : list string)
| SubAgentResults (agent_name content : string)
| TaskDelegated (agent_name : string)
| TaskError (agent_name message : string).

(** What a call of [task] can see or touch: the module-level registry, the
    session state held by the caller (which [task] is not given), and the
    calls made so far to the external capabilities, oldest first. *)
Record World : Type := mkWorld {
  SUB_AGENTS : list (string * SubAgent);
  session : DeepAgentState;
  invocations : list (string * string)
}.

(** [SUB_AGENTS[key]] and [list(SUB_AGENTS.keys())] *)
Fixpoint dict_get {V : Type} (key : string) (d : list (string * V)) : option V :=
  match d with
  | [] => None
  | (k, v) :: rest => if bool_decide (k = key) then Some v else dict_get key rest
  end.

Definition dict_keys {V : Type} (d : list (string * V)) : list string := d.*1.

Definition record_invocation (agent_name task_description : string)
    (w : World) : World :=
  mkWorld (SUB_AGENTS w) (session w)
    (invocations w ++ [(agent_name, task_description)]).

(** The body of the [try] block after [invoke] has returned [result];
    [result["messages"][-1]] raises [IndexError] on an empty list, which the
    [except] clause turns into the error text. *)
Definition extract_response (agent_name : string) (result : InvokeResult)
    : TaskReturn :=
  match result with
  | ResultDict (Some msgs) =>
      match last msgs with
      | Some last_message =>
          match content last_message with
          | Some c => SubAgentResults agent_name c
          | None => TaskDelegated agent_name
          end
      | None => TaskError agent_name "list index out of range"
      end
  | ResultDict None => TaskDelegated agent_name
  | ResultFalsy => TaskDelegated agent_name
  end.

(** [task(agent_name, task_description)] *)
Definition task (w : World) (agent_name task_description : string)
    : TaskReturn * World :=
  match dict_get agent_name (SUB_AGENTS w) with
  | None => (NotFound agent_name (dict_keys (SUB_AGENTS w)), w)
  | Some sub_agent =>
      let w := record_invocation agent_name task_description w in
      match sub_agent task_description with
      | Returned result => (extract_response agent_name result, w)
      | Raised e => (TaskError agent_name e, w)
      end
  end.

(** ** States a session can reach *)

(** One call of a function of [agent_state.py] on the session state.  A call
    of [cache_financial_data] that raises leaves the state as it was;
    [list_files] and [get_state_summary] only read the state, and [task] is
    not given it. *)
Inductive step (st : DeepAgentState) : DeepAgentState → Prop :=
| step_add_todo_item task priority assigned_agent dependencies now now_id :
    step st (add_todo_item st task priority assigned_agent dependencies now now_id)
| step_update_todo_status todo_id status metadata now :
    step st (update_todo_status st todo_id status metadata now)
| step_write_file filename content file_type now :
    step st (write_file st filename content file_type now)
| step_read_file filename now :
    step st (read_file st filename now).2
| step_cache_financial_data symbol data_type data expiry_minutes now st' :
    cache_financial_data st symbol data_type data expiry_minutes now = Some st' →
    step st st'
| step_get_cached_financial_data symbol data_type now :
    step st (get_cached_financial_data st symbol data_type now).2
| step_register_sub_agent name description tools now :
    step st (register_sub_agent st name description tools now)
| step_update_sub_agent_status agent_name status results now :
    step st (update_sub_agent_status st agent_name status results now)
| step_validate_state :
    step st (validate_state st).2.

Inductive reachable : DeepAgentState → Prop :=
| reachable_initial user_message session_id max_iterations now_id now :
    reachable (create_initial_state user_message session_id max_iterations now_id now)
| reachable_step st st' :
    reachable st → step st st' → reachable st'.

(** ** Shape of the generated task ids *)

(** Whether the character [c] occurs in [s]. *)
Fixpoint occurs (c : ascii) (s : string) : bool :=
  match s with
  | EmptyString => false
  | String a rest => bool_decide (a = c) || occurs c rest
  end.

(** The id at position [i] (counted from 0) spells the number [i + 1]
    between "todo_" and the next underscore. *)
Definition ids_numbered (ids : list string) : Prop :=
  ∀ (i : nat) (x : string),
    ids !! i = Some x →
    ∃ suffix, x = "todo_" +:+ pretty (S i) +:+ "_" +:+ suffix.

(** ** Sample sessions *)

(** 2026-11-03T14:46:00 and the two seconds after it. *)
Definition t0 : datetime := 63929313960000000.
Definition t1 : datetime := t0 + 1000000.
Definition t2 : datetime := t0 + 2000000.

Definition fresh_session : DeepAgentState :=
  create_initial_state "analyze AAPL" (Some "demo") 50 t0 t0.

(** A capability that answers every task with one message. *)
Definition buy_answer : string := "{'rec': 'BUY'}".
Definition stock_analyst : SubAgent :=
  λ _, Returned (ResultDict (Some [{| content := Some buy_answer |}])).

Definition registered_session : DeepAgentState :=
  register_sub_agent fresh_session "stock_analyst"
    "Individual stock analysis" ["get_stock_price"; "get_stock_history"] t0.

Definition delegation_world : World :=
  mkWorld [("stock_analyst", stock_analyst)] registered_session [].

Definition buy_result : pydict := {[ "rec" := VStr "BUY" ]}.

(** A session holding one file, written at [t0]. *)
Definition notes_session : DeepAgentState :=
  write_file fresh_session "notes.md" "AAPL looks strong" File t0.

(** A payload, and the session that caches it at [t0] for one minute. *)
Definition price_payload : pydict := {[ "p" := VInt 100 ]}.

Definition priced_session : DeepAgentState :=
  default fresh_session
    (cache_financial_data fresh_session "AAPL" "price" price_payload 1 t0).

(** A session with one task, added at [t0]. *)
Definition one_task_session : DeepAgentState :=
  add_todo_item fresh_session "fetch prices" Medium None None t0 t0.

(** A second task, added one second later, that depends on an id no task
    carries. *)
Definition orphan_task_session : DeepAgentState :=
  add_todo_item one_task_session "compare with peers" High None
    (Some ["T99"]) t1 t1.

Definition orphan_task : TodoItem :=
  {| TodoItem.id := "todo_2_144601";
     TodoItem.task := "compare with peers";
     TodoItem.status := TodoPending;
     TodoItem.created_at := isoformat t1;
     TodoItem.updated_at := isoformat t1;
     TodoItem.priority := High;
     TodoItem.assigned_agent := None;
     TodoItem.dependencies := ["T99"];
     TodoItem.metadata := ∅ |}.

Definition notes_entry : FileSystemItem :=
  {| FileSystemItem.name := "notes.md";
     FileSystemItem.content := "AAPL looks strong";
     FileSystemItem.type := File;
     FileSystemItem.created_at := isoformat t0;
     FileSystemItem.updated_at := isoformat t0;
     FileSystemItem.size := 17;
     FileSystemItem.metadata := ∅ |}.

Definition done_note : pydict := {[ "note" := VStr "done" ]}.

(** ** Reading the state *)

(** [list_files(state, directory=None)].  The directory, defaulted to the
    current one, is not used: every key of [files] is returned.  The map
    does not record insertion order, so the names come in the order of the
    map, which may differ from the order Python returns them in. *)
Definition list_files (state : DeepAgentState) (directory : option string)
    : list string :=
  let directory := default (current_directory state) directory in
  (map_to_list (files state)).*1.

(** The tests [t["status"] == "pending"] and [t["status"] == "in_progress"]. *)
Definition is_pending (t : TodoItem) : bool :=
  match TodoItem.status t with TodoPending => true | _ => false end.

Definition is_in_progress (t : TodoItem) : bool :=
  match TodoItem.status t with TodoInProgress => true | _ => false end.

(** The dictionary returned by [get_state_summary], one field per key. *)
Module StateSummary.
Record t : Type := mk {
  session_id : string;
  agent_status : AgentStatus;
  iteration_count : Z;
  max_iterations : Z;
  message_count : nat;
  todo_count : nat;
  pending_todos : nat;
  active_todos : nat;
  file_count : nat;
  sub_agent_count : nat;
  active_sub_agents : nat;
  cached_data_count : nat;
  watchlist_size : nat;
  portfolio_positions : nat;
  last_activity : isotime
}.
End StateSummary.
Abbreviation StateSummary := StateSummary.t.

(** [get_state_summary(state)] *)
Definition get_state_summary (state : DeepAgentState) : StateSummary :=
  {| StateSummary.session_id := session_id state;
     StateSummary.agent_status := agent_status state;
     StateSummary.iteration_count := iteration_count state;
     StateSummary.max_iterations := max_iterations state;
     StateSummary.message_count := length (messages state);
     StateSummary.todo_count := length (todos state);
     StateSummary.pending_todos :=
       length (List.filter is_pending (todos state));
     StateSummary.active_todos :=
       length (List.filter is_in_progress (todos state));
     StateSummary.file_count := size (files state);
     StateSummary.sub_agent_count := size (sub_agents state);
     StateSummary.active_sub_agents := length (active_sub_agents state);
     StateSummary.cached_data_count := size (financial_cache state);
     StateSummary.watchlist_size := length (watchlist state);
     StateSummary.portfolio_positions := size (portfolio state);
     StateSummary.last_activity := last_activity state |}.

(** The file a log record is about. *)
Definition op_filename (op : FileOperation) : string :=
  match op with
  | OpWrite filename _ _ => filename
  | OpRead filename _ => filename
  end.

(** The part of a task that no function assigns after the task is built. *)
Definition todo_identity (todo : TodoItem) :=
  (TodoItem.id todo, TodoItem.task todo, TodoItem.dependencies todo,
   TodoItem.created_at todo, TodoItem.priority todo,
   TodoItem.assigned_agent todo).

(** ** Building the registry of sub-agents *)

(** [SUB_AGENTS[key] = v]: an existing key keeps its place, a new one goes
    last. *)
Fixpoint dict_set {V : Type} (key : string) (v : V) (d : list (string * V))
    : list (string * V) :=
  match d with
  | [] => [(key, v)]
  | (k, x) :: rest =>
      if bool_decide (k = key) then (k, v) :: rest
      else (k, x) :: dict_set key v rest
  end.

(** What a constructor [create_..._agent()] does: it hands back a compiled
    agent, or raises (the model or the graph could not be built). *)
Inductive BuildOutcome : Type :=
| Built (agent : SubAgent)
| BuildFailed (message : string).

Definition assign_sub_agent (name : string) (agent : SubAgent) (w : World)
    : World :=
  mkWorld (dict_set name agent (SUB_AGENTS w)) (session w) (invocations w).

(** [initialize_sub_agents()].  The four constructors run in this order,
    each result being assigned before the next constructor runs; the first
    exception is re-raised by the [except] clause ([Some message]), and the
    constructors after it do not run. *)
Definition initialize_sub_agents (w : World)
    (create_stock_analyst_agent create_portfolio_manager_agent
     create_risk_assessor_agent create_market_researcher_agent : BuildOutcome)
    : option string * World :=
  match create_stock_analyst_agent with
  | BuildFailed e => (Some e, w)
  | Built agent =>
  let w := assign_sub_agent "stock_analyst" agent w in
  match create_portfolio_manager_agent with
  | BuildFailed e => (Some e, w)
  | Built agent =>
  let w := assign_sub_agent "portfolio_manager" agent w in
  match create_risk_assessor_agent with
  | BuildFailed e => (Some e, w)
  | Built agent =>
  let w := assign_sub_agent "risk_assessor" agent w in
  match create_market_researcher_agent with
  | BuildFailed e => (Some e, w)
  | Built agent =>
  let w := assign_sub_agent "market_researcher" agent w in
  (None, w)
  end end end end.

(** ** Further sample sessions *)

(** A session created with a ceiling of zero iterations. *)
Definition capped_session : DeepAgentState :=
  create_initial_state "analyze AAPL" None 0 t0 t0.

(** A state whose list of active specialists names one that was never
    registered; the planner, not the state module, maintains that list. *)
Definition stale_session : DeepAgentState :=
  mkState (messages fresh_session) (todos fresh_session)
    (current_task fresh_session) (planning_context fresh_session)
    (files fresh_session) (current_directory fresh_session)
    (file_operations_log fresh_session)
    (sub_agents fresh_session) ["risk_assessor"]
    (delegation_history fresh_session)
    (financial_cache fresh_session) (watchlist fresh_session)
    (portfolio fresh_session) (market_data fresh_session)
    (research_context fresh_session) (analysis_results fresh_session)
    (web_search_results fresh_session)
    (iteration_count fresh_session) (max_iterations fresh_session)
    (start_time fresh_session) (last_activity fresh_session)
    (agent_status fresh_session) (session_id fresh_session)
    (user_preferences fresh_session) (conversation_context fresh_session).

(** ** Histories of calls *)







(** * Properties *)

(** ** The clock *)

(** The calendar fields agree with the C library on sample instants. *)
Example strftime_samples :
  strftime_Ymd_HMS 63844808709123456 = "20240229_130509"
  ∧ strftime_Ymd_HMS 63929313960000000 = "20261103_144600"
  ∧ strftime_Ymd_HMS 59958061323000000 = "19001231_010203"
  ∧ strftime_Ymd_HMS 63087465600000000 = "20000301_000000"
  ∧ strftime_Ymd_HMS 315537897599999999 = "99991231_235959"
  ∧ strftime_Ymd_HMS 0 = "10101_000000".
Proof. vm_compute. repeat split. Qed.

(** ** Virtual file store *)

Lemma files_write_file st filename content file_type now :
  files (write_file st filename content file_type now)
  = <[filename :=
        {| FileSystemItem.name := filename;
           FileSystemItem.content := content;
           FileSystemItem.type := file_type;
           FileSystemItem.created_at := isoformat now;
           FileSystemItem.updated_at := isoformat now;
           FileSystemItem.size := String.length content;
           FileSystemItem.metadata := ∅ |}]> (files st).
Proof. reflexivity. Qed.

Lemma log_write_file st filename content file_type now :
  file_operations_log (write_file st filename content file_type now)
  = file_operations_log st
    ++ [OpWrite filename (isoformat now) (String.length content)].
Proof. reflexivity. Qed.

(** C4. Writing [content] under [name] and reading [name] back at once
    returns exactly [content]; the size kept in the stored entry and the
    size kept in the write record appended to the log both equal
    [len(content)]. *)
Theorem write_read_roundtrip (st : DeepAgentState) (name content : string)
    (file_type : FileType) (t_write t_read : datetime) :
  let st1 := write_file st name content file_type t_write in
  (read_file st1 name t_read).1 = Some content
  ∧ FileSystemItem.size <$> files st1 !! name = Some (String.length content)
  ∧ last (file_operations_log st1)
    = Some (OpWrite name (isoformat t_write) (String.length content)).
Proof.
  intros st1. subst st1. repeat split.
  - unfold read_file. rewrite files_write_file, lookup_insert_eq. reflexivity.
  - rewrite files_write_file, lookup_insert_eq. reflexivity.
  - rewrite log_write_file. apply last_snoc.
Qed.

(** C10. Writing to a name that already exists replaces the whole entry:
    the new entry has the time of this write as both its creation and its
    update time, an empty metadata dictionary, and the new content with its
    length as size; nothing of the old entry survives. *)
Theorem write_file_replaces_entry (st : DeepAgentState) (N content : string)
    (file_type : FileType) (now : datetime) (old : FileSystemItem) :
  files st !! N = Some old →
  files (write_file st N content file_type now) !! N
  = Some {| FileSystemItem.name := N;
            FileSystemItem.content := content;
            FileSystemItem.type := file_type;
            FileSystemItem.created_at := isoformat now;
            FileSystemItem.updated_at := isoformat now;
            FileSystemItem.size := String.length content;
            FileSystemItem.metadata := ∅ |}.
Proof. intros _. rewrite files_write_file. apply lookup_insert_eq. Qed.

(** ** Task backlog *)

Lemma set_todos_same st : set_todos (todos st) st = st.
Proof. by destruct st. Qed.

Lemma update_first_match_absent todo_id status metadata now (l : list TodoItem) :
  (∀ todo, todo ∈ l → TodoItem.id todo ≠ todo_id) →
  update_first_match todo_id status metadata now l = l.
Proof.
  induction l as [|todo rest IH]; intros Hno; simpl; [done|].
  rewrite bool_decide_eq_false_2 by (apply Hno; left).
  f_equal. apply IH. intros U HU. apply Hno. by right.
Qed.

Lemma update_first_match_present todo_id status metadata now (l : list TodoItem) :
  (∃ T, T ∈ l ∧ TodoItem.id T = todo_id) →
  ∃ pre T post,
    l = pre ++ T :: post
    ∧ TodoItem.id T = todo_id
    ∧ Forall (λ U, TodoItem.id U ≠ todo_id) pre
    ∧ update_first_match todo_id status metadata now l
      = pre ++ apply_todo_update status metadata now T :: post.
Proof.
  induction l as [|todo rest IH]; intros (T & HT & Hid).
  - by apply elem_of_nil in HT.
  - simpl. destruct (decide (TodoItem.id todo = todo_id)) as [Heq|Hne].
    + exists [], todo, rest. rewrite bool_decide_eq_true_2 by done.
      by repeat split.
    + rewrite bool_decide_eq_false_2 by done.
      destruct IH as (pre & T0 & post & -> & Hid0 & Hpre & Hupd).
      { apply elem_of_cons in HT as [->|HT]; [done|]. by exists T. }
      exists (todo :: pre), T0, post. rewrite Hupd.
      repeat split; [done|by constructor].
Qed.

Lemma dict_update_lookup (target patch : pydict) (k : string) :
  dict_update target patch !! k
  = match patch !! k with Some v => Some v | None => target !! k end.
Proof.
  unfold dict_update. rewrite lookup_union.
  by destruct (patch !! k), (target !! k).
Qed.

Lemma apply_todo_update_metadata status (metadata : option pydict) now todo k :
  TodoItem.metadata (apply_todo_update status metadata now todo) !! k
  = match default ∅ metadata !! k with
    | Some v => Some v
    | None => TodoItem.metadata todo !! k
    end.
Proof.
  simpl. destruct metadata as [m|]; simpl.
  - case_bool_decide as Hm; simpl.
    + subst m. by rewrite lookup_empty.
    + apply dict_update_lookup.
  - by rewrite lookup_empty.
Qed.

(** C7. A status update addressed to an id that no task of the backlog
    carries, and a mark addressed to a name the registry does not hold, only
    refresh the last-activity time: the backlog, respectively the registry,
    is exactly what it was, and the call returns normally. *)
Theorem unknown_target_is_noop (st : DeepAgentState) :
  (∀ todo_id status metadata now,
     (∀ todo, todo ∈ todos st → TodoItem.id todo ≠ todo_id) →
     update_todo_status st todo_id status metadata now
     = set_last_activity (isoformat now) st
     ∧ todos (update_todo_status st todo_id status metadata now) = todos st)
  ∧ (∀ agent_name status results now,
       sub_agents st !! agent_name = None →
       update_sub_agent_status st agent_name status results now
       = set_last_activity (isoformat now) st
       ∧ sub_agents (update_sub_agent_status st agent_name status results now)
         = sub_agents st).
Proof.
  split.
  - intros todo_id status metadata now Hno. unfold update_todo_status.
    rewrite update_first_match_absent by done. by rewrite set_todos_same.
  - intros agent_name status results now Hno. unfold update_sub_agent_status.
    by rewrite Hno.
Qed.

(** C8. When the backlog holds a task with id [X], a status update for [X]
    rewrites exactly one task, the first one carrying that id: its status
    becomes the new status, its update time the time of the call, and its
    metadata the old metadata overridden key by key by the patch.  Its id,
    description and dependencies (and its creation time, priority and
    assignee) are kept, and every other task of the backlog is untouched. *)
Theorem update_todo_status_frame (st : DeepAgentState) (X : string)
    (new_status : TodoStatus) (metadata_patch : option pydict)
    (now : datetime) :
  (∃ T, T ∈ todos st ∧ TodoItem.id T = X) →
  ∃ pre T post T',
    todos st = pre ++ T :: post
    ∧ TodoItem.id T = X
    ∧ Forall (λ U, TodoItem.id U ≠ X) pre
    ∧ todos (update_todo_status st X new_status metadata_patch now)
      = pre ++ T' :: post
    ∧ TodoItem.id T' = TodoItem.id T
    ∧ TodoItem.task T' = TodoItem.task T
    ∧ TodoItem.dependencies T' = TodoItem.dependencies T
    ∧ TodoItem.created_at T' = TodoItem.created_at T
    ∧ TodoItem.priority T' = TodoItem.priority T
    ∧ TodoItem.assigned_agent T' = TodoItem.assigned_agent T
    ∧ TodoItem.status T' = new_status
    ∧ TodoItem.updated_at T' = isoformat now
    ∧ ∀ k, TodoItem.metadata T' !! k
           = match default ∅ metadata_patch !! k with
             | Some v => Some v
             | None => TodoItem.metadata T !! k
             end.
Proof.
  intros Hin.
  destruct (update_first_match_present X new_status metadata_patch
              (isoformat now) (todos st) Hin)
    as (pre & T & post & Hsplit & Hid & Hpre & Hupd).
  exists pre, T, post,
    (apply_todo_update new_status metadata_patch (isoformat now) T).
  repeat split; try done.
  intros k. apply apply_todo_update_metadata.
Qed.

(** ** Validation *)

Lemma elem_of_flat_map {A B : Type} (f : A → list B) (l : list A) (y : B) :
  y ∈ flat_map f l ↔ ∃ x, x ∈ l ∧ y ∈ f x.
Proof.
  induction l as [|a l IH]; simpl.
  - split; [intros H; by apply elem_of_nil in H|].
    intros (x & Hx & _). by apply elem_of_nil in Hx.
  - rewrite elem_of_app, IH. split.
    + intros [Hy|(x & Hx & Hy)]; [exists a|exists x]; split; try done;
        [by left|by right].
    + intros (x & Hx & Hy). apply elem_of_cons in Hx as [->|Hx]; [by left|].
      right. by exists x.
Qed.

Lemma validate_state_read_only st : (validate_state st).2 = st.
Proof. reflexivity. Qed.

(** C6. If a task [T] of the backlog lists a dependency id that no task of
    the backlog carries, the issues returned by validation contain the text
    "TODO <id of T> has orphaned dependency: <that id>", which names [T] by
    its id and spells the dangling id; validation returns the state exactly
    as it received it. *)
Theorem validate_reports_orphan (st : DeepAgentState) (T : TodoItem)
    (dep_id : string) :
  T ∈ todos st →
  dep_id ∈ TodoItem.dependencies T →
  (∀ U, U ∈ todos st → TodoItem.id U ≠ dep_id) →
  ("TODO " +:+ TodoItem.id T +:+ " has orphaned dependency: " +:+ dep_id)
  ∈ (validate_state st).1
  ∧ (validate_state st).2 = st.
Proof.
  intros HT Hdep Hdangling. split; [|apply validate_state_read_only].
  change ("TODO " +:+ TodoItem.id T +:+ " has orphaned dependency: " +:+ dep_id)
    with (orphan_issue (TodoItem.id T) dep_id).
  unfold validate_state; simpl.
  apply elem_of_app; left. apply elem_of_app; right.
  apply elem_of_flat_map. exists T. split; [done|].
  apply elem_of_flat_map. exists dep_id. split; [done|].
  rewrite bool_decide_eq_true_2; [by left|].
  rewrite elem_of_list_to_set, list_elem_of_fmap.
  intros (U & HU & HUin). by apply (Hdangling U).
Qed.

(** ** Delegation *)

Lemma dict_get_None {V : Type} (key : string) (d : list (string * V)) :
  dict_get key d = None ↔ key ∉ dict_keys d.
Proof.
  unfold dict_keys. induction d as [|[k v] rest IH]; simpl.
  - split; [intros _; apply not_elem_of_nil|done].
  - rewrite not_elem_of_cons. case_bool_decide as Hk.
    + split; [done|]. intros [Hne _]. by destruct Hne.
    + rewrite IH. split; [by intros ?; split; [congruence|]|by intros [_ ?]].
Qed.

(** C5. Delegating to a name that is not a key of the registry returns the
    not-found outcome, which carries the registered names in registration
    order; no capability is invoked on the way (no other specialist is tried
    in its place), and the registry and the session are left as they were:
    in particular the unknown name is still not registered. *)
Theorem unknown_specialist_not_found (w : World)
    (agent_name task_description : string) :
  agent_name ∉ dict_keys (SUB_AGENTS w) →
  let r := task w agent_name task_description in
  r.1 = NotFound agent_name (dict_keys (SUB_AGENTS w))
  ∧ invocations r.2 = invocations w
  ∧ SUB_AGENTS r.2 = SUB_AGENTS w
  ∧ session r.2 = session w
  ∧ agent_name ∉ dict_keys (SUB_AGENTS r.2).
Proof.
  intros Hunknown r. subst r. unfold task.
  by rewrite (proj2 (dict_get_None _ _) Hunknown).
Qed.

Lemma task_registered w agent_name task_description sub_agent :
  dict_get agent_name (SUB_AGENTS w) = Some sub_agent →
  task w agent_name task_description
  = let w' := record_invocation agent_name task_description w in
    match sub_agent task_description with
    | Returned result => (extract_response agent_name result, w')
    | Raised e => (TaskError agent_name e, w')
    end.
Proof. intros Hget. unfold task. by rewrite Hget. Qed.

Lemma mark_registered st agent_name status results now info :
  sub_agents st !! agent_name = Some info →
  sub_agents (update_sub_agent_status st agent_name status results now)
    !! agent_name
  = Some (apply_agent_update status results (isoformat now) info).
Proof.
  intros Hinfo. unfold update_sub_agent_status. rewrite Hinfo. simpl.
  apply lookup_insert_eq.
Qed.

(** C1, as the code has it. A delegation to a registered name whose
    capability answers with a message carrying content [c] invokes the
    capability once and returns [c] to the caller under the "results"
    heading; it does not touch the session, so the specialist's record keeps
    the status and stored result it had.  The record becomes [completed]
    with a result attached through the separate mark operation, called on a
    registered name with a non-empty result. *)
Theorem successful_delegation (w : World) (agent_name task_description : string)
    (sub_agent : SubAgent) (msgs : list AgentMessage)
    (last_message : AgentMessage) (c : string) :
  dict_get agent_name (SUB_AGENTS w) = Some sub_agent →
  sub_agent task_description = Returned (ResultDict (Some msgs)) →
  last msgs = Some last_message →
  content last_message = Some c →
  let r := task w agent_name task_description in
  r.1 = SubAgentResults agent_name c
  ∧ invocations r.2 = invocations w ++ [(agent_name, task_description)]
  ∧ SUB_AGENTS r.2 = SUB_AGENTS w
  ∧ session r.2 = session w
  ∧ ∀ info result now,
      sub_agents (session r.2) !! agent_name = Some info →
      result ≠ ∅ →
      ∃ info',
        sub_agents (update_sub_agent_status (session r.2) agent_name
                      AgentCompleted (Some result) now) !! agent_name
        = Some info'
        ∧ SubAgentInfo.status info' = AgentCompleted
        ∧ SubAgentInfo.results info' = Some result
        ∧ SubAgentInfo.last_active info' = isoformat now.
Proof.
  intros Hget Hret Hlast Hcontent r. subst r.
  rewrite (task_registered _ _ _ _ Hget), Hret. simpl.
  unfold extract_response. rewrite Hlast, Hcontent.
  repeat split. intros info result now Hinfo Hne.
  eexists. split; [by apply mark_registered|].
  simpl. rewrite bool_decide_eq_false_2 by done. by repeat split.
Qed.

(** C1 fails on the scenario of the specification: "stock_analyst" is
    registered, the task "analyze AAPL" is delegated and the capability
    answers.  The answer reaches the caller, yet the record is still [idle]
    with no result. *)
Lemma delegation_leaves_record_idle :
  let r := task delegation_world "stock_analyst" "analyze AAPL" in
  r.1 = SubAgentResults "stock_analyst" buy_answer
  ∧ SubAgentInfo.status <$> sub_agents (session r.2) !! "stock_analyst"
    = Some AgentIdle
  ∧ SubAgentInfo.results <$> sub_agents (session r.2) !! "stock_analyst"
    = Some None
  ∧ SubAgentInfo.status <$> sub_agents (session r.2) !! "stock_analyst"
    ≠ Some AgentCompleted.
Proof. vm_compute. by repeat split. Qed.

Lemma buy_result_non_empty : buy_result ≠ ∅.
Proof. apply map_non_empty_singleton. Qed.

Lemma successful_delegation_witness :
  let r := task delegation_world "stock_analyst" "analyze AAPL" in
  r.1 = SubAgentResults "stock_analyst" buy_answer
  ∧ session r.2 = registered_session
  ∧ ∃ info',
      sub_agents (update_sub_agent_status (session r.2) "stock_analyst"
                    AgentCompleted (Some buy_result) t1) !! "stock_analyst"
      = Some info'
      ∧ SubAgentInfo.status info' = AgentCompleted
      ∧ SubAgentInfo.results info' = Some buy_result.
Proof.
  pose proof (successful_delegation delegation_world "stock_analyst"
                "analyze AAPL" stock_analyst
                [{| content := Some buy_answer |}]
                {| content := Some buy_answer |} buy_answer
                eq_refl eq_refl eq_refl eq_refl) as H.
  simpl in H. destruct H as (Hout & _ & _ & Hsession & Hmark).
  split; [exact Hout|]. split; [exact Hsession|].
  destruct (Hmark _ buy_result t1 eq_refl buy_result_non_empty)
    as (info' & Hinfo' & Hstatus & Hresults & _).
  exists info'. split; [exact Hinfo'|]. split; [exact Hstatus|exact Hresults].
Defined.

(** ** Last activity *)

(** C2, as the code has it. Each of the six functions that return the
    state (adding a task, updating a task, writing a file, caching a
    payload, registering a specialist, marking a specialist) leaves the
    time of the call as the last-activity time of the state it returns. *)
Theorem mutators_refresh_last_activity (st : DeepAgentState) (now : datetime) :
  (∀ task priority assigned_agent dependencies now_id,
     last_activity
       (add_todo_item st task priority assigned_agent dependencies now now_id)
     = isoformat now)
  ∧ (∀ todo_id status metadata,
       last_activity (update_todo_status st todo_id status metadata now)
       = isoformat now)
  ∧ (∀ filename content file_type,
       last_activity (write_file st filename content file_type now)
       = isoformat now)
  ∧ (∀ symbol data_type data expiry_minutes st',
       cache_financial_data st symbol data_type data expiry_minutes now
       = Some st' →
       last_activity st' = isoformat now)
  ∧ (∀ name description tools,
       last_activity (register_sub_agent st name description tools now)
       = isoformat now)
  ∧ (∀ agent_name status results,
       last_activity (update_sub_agent_status st agent_name status results now)
       = isoformat now).
Proof.
  repeat split.
  intros symbol data_type data expiry_minutes st'.
  unfold cache_financial_data.
  destruct (add_minutes now expiry_minutes); [|done].
  by intros [= <-].
Qed.

Lemma mutators_refresh_last_activity_witness :
  last_activity (write_file fresh_session "notes.md" "AAPL" File t1)
  = isoformat t1
  ∧ (cache_financial_data fresh_session "AAPL" "price" price_payload 1 t1
       ≫= λ st', Some (last_activity st')) = Some (isoformat t1).
Proof.
  destruct (mutators_refresh_last_activity fresh_session t1)
    as (_ & _ & Hwrite & Hput & _).
  split; [apply Hwrite|].
  destruct (cache_financial_data fresh_session "AAPL" "price" price_payload 1 t1)
    as [st'|] eqn:Hst'; [|vm_compute in Hst'; discriminate].
  simpl. f_equal. by apply (Hput "AAPL" "price" price_payload 1).
Defined.

Lemma priced_session_put :
  cache_financial_data fresh_session "AAPL" "price" price_payload 1 t0
  = Some priced_session.
Proof. vm_compute. reflexivity. Qed.

(** C2 fails on the two reads that mutate. A successful read at [t1]
    appends its record to the operation log, and a cache get two minutes
    after a one-minute put deletes the expired entry; both leave the
    last-activity time at [t0], the time of the earlier write, respectively
    put, and not at the time of the call. *)
Lemma reads_mutate_without_refresh :
  (let st' := (read_file notes_session "notes.md" t1).2 in
   file_operations_log st'
   = file_operations_log notes_session ++ [OpRead "notes.md" (isoformat t1)]
   ∧ last_activity st' = isoformat t0
   ∧ last_activity st' ≠ isoformat t1)
  ∧ (let now := t0 + 120000000 in
     let st' := (get_cached_financial_data priced_session "AAPL" "price" now).2 in
     is_Some (financial_cache priced_session !! cache_key "AAPL" "price")
     ∧ financial_cache st' !! cache_key "AAPL" "price" = None
     ∧ last_activity st' = isoformat t0
     ∧ last_activity st' ≠ isoformat now).
Proof.
  split.
  - vm_compute. by repeat split.
  - repeat split; [|vm_compute; done..]. vm_compute. by eexists.
Qed.

(** ** Expiring cache *)

Lemma cache_financial_data_Some st symbol data_type data expiry_minutes now st1 :
  cache_financial_data st symbol data_type data expiry_minutes now = Some st1 →
  in_datetime_range (now + expiry_minutes * 60000000) = true
  ∧ financial_cache st1
    = <[cache_key symbol data_type :=
          {| FinancialDataCache.symbol := symbol;
             FinancialDataCache.data_type := data_type;
             FinancialDataCache.data := data;
             FinancialDataCache.timestamp := isoformat now;
             FinancialDataCache.expiry :=
               isoformat (now + expiry_minutes * 60000000) |}]>
        (financial_cache st).
Proof.
  unfold cache_financial_data, add_minutes.
  destruct (in_datetime_range _); [|done].
  by intros [= <-].
Qed.


Lemma get_cached_fresh st symbol data_type now item :
  financial_cache st !! cache_key symbol data_type = Some item →
  now < fromisoformat (FinancialDataCache.expiry item) →
  get_cached_financial_data st symbol data_type now
  = (Some (FinancialDataCache.data item), st).
Proof.
  intros Hitem Hnow. unfold get_cached_financial_data.
  by rewrite Hitem, bool_decide_eq_true_2.
Qed.

Lemma get_cached_expired st symbol data_type now item :
  financial_cache st !! cache_key symbol data_type = Some item →
  fromisoformat (FinancialDataCache.expiry item) ≤ now →
  get_cached_financial_data st symbol data_type now
  = (None,
     set_financial_cache
       (delete (cache_key symbol data_type) (financial_cache st)) st).
Proof.
  intros Hitem Hnow. unfold get_cached_financial_data.
  rewrite Hitem, bool_decide_eq_false_2; [done|lia].
Qed.






(** ** Fresh task ids *)

Lemma pretty_N_char_not_underscore (x : N) : pretty_N_char x ≠ "_"%char.
Proof. unfold pretty_N_char. by repeat case_match. Qed.

Lemma occurs_pretty_N_go (x : N) (s : string) :
  occurs "_" s = false → occurs "_" (pretty_N_go x s) = false.
Proof.
  revert s. induction (N.lt_wf_0 x) as [x _ IH]; intros s Hs.
  destruct (decide (x = 0)%N) as [->|Hx].
  - by rewrite pretty_N_go_0.
  - rewrite pretty_N_go_step by lia. apply IH.
    + apply N.div_lt; lia.
    + simpl. rewrite Hs, orb_false_r.
      apply bool_decide_eq_false_2, pretty_N_char_not_underscore.
Qed.

Lemma occurs_pretty_nat (n : nat) : occurs "_" (pretty n) = false.
Proof.
  unfold pretty, pretty_nat, pretty, pretty_N.
  case_decide; [done|]. by apply occurs_pretty_N_go.
Qed.

(** Two texts free of underscores that are each followed by an underscore
    in the same string are the same text. *)
Lemma append_underscore_inj (a b x y : string) :
  occurs "_" a = false → occurs "_" b = false →
  a +:+ "_" +:+ x = b +:+ "_" +:+ y → a = b.
Proof.
  revert b. induction a as [|c a IH]; intros [|d b]; simpl.
  - done.
  - intros _ Hb [= <- _]. by rewrite bool_decide_eq_true_2 in Hb.
  - intros Ha _ [= -> _]. by rewrite bool_decide_eq_true_2 in Ha.
  - intros Ha Hb [= -> Heq].
    apply orb_false_iff in Ha as [_ Ha]. apply orb_false_iff in Hb as [_ Hb].
    f_equal. by apply IH.
Qed.

Lemma update_first_match_ids todo_id status metadata now (l : list TodoItem) :
  TodoItem.id <$> update_first_match todo_id status metadata now l
  = TodoItem.id <$> l.
Proof.
  induction l as [|todo rest IH]; [done|].
  cbn [update_first_match]. case_bool_decide; rewrite !fmap_cons; [done|].
  by rewrite IH.
Qed.

Lemma ids_numbered_snoc (ids : list string) (suffix : string) :
  ids_numbered ids →
  ids_numbered
    (ids ++ ["todo_" +:+ pretty (length ids + 1)%nat +:+ "_" +:+ suffix]).
Proof.
  intros Hids i x Hx.
  apply lookup_app_Some in Hx as [Hx|[Hlen Hx]]; [by apply Hids|].
  apply list_lookup_singleton_Some in Hx as [Hi <-].
  exists suffix. do 3 f_equal. lia.
Qed.

Lemma step_ids_numbered st st' :
  step st st' →
  ids_numbered (TodoItem.id <$> todos st) →
  ids_numbered (TodoItem.id <$> todos st').
Proof.
  intros Hstep Hids. destruct Hstep; simpl; try done.
  - rewrite fmap_app. simpl. unfold new_todo_id.
    rewrite <- (length_fmap TodoItem.id (todos st)).
    by apply ids_numbered_snoc.
  - by rewrite update_first_match_ids.
  - unfold read_file. by destruct (files st !! filename).
  - unfold cache_financial_data in H.
    destruct (add_minutes now expiry_minutes); [|done]. by injection H as <-.
  - unfold get_cached_financial_data.
    destruct (financial_cache st !! _); [|done]. by case_bool_decide.
  - unfold update_sub_agent_status. by destruct (sub_agents st !! agent_name).
Qed.

Lemma reachable_ids_numbered st :
  reachable st → ids_numbered (TodoItem.id <$> todos st).
Proof.
  induction 1 as [|st st' _ IH Hstep].
  - intros i x Hx. change (@nil string !! i = Some x) in Hx.
    by rewrite lookup_nil in Hx.
  - by apply (step_ids_numbered st).
Qed.

(** C9. In every state a session reaches from its initial state through
    the functions of the state module, the task appended by [add_todo_item]
    carries the generated id, and that id differs from the id of every task
    already in the backlog. *)
Theorem add_todo_item_fresh_id (st : DeepAgentState) (task : string)
    (priority : Priority) (assigned_agent : option string)
    (dependencies : option (list string)) (now now_id : datetime) :
  reachable st →
  let st' :=
    add_todo_item st task priority assigned_agent dependencies now now_id in
  ∃ new_todo,
    todos st' = todos st ++ [new_todo]
    ∧ TodoItem.id new_todo = new_todo_id st now_id
    ∧ ∀ T, T ∈ todos st → TodoItem.id T ≠ TodoItem.id new_todo.
Proof.
  intros Hreach st'. subst st'. eexists. split; [reflexivity|].
  split; [reflexivity|]. simpl.
  intros T HT Heq.
  apply list_elem_of_lookup in HT as [i Hi].
  pose proof (lookup_lt_Some _ _ _ Hi) as Hlt.
  destruct (reachable_ids_numbered st Hreach i (TodoItem.id T)) as [suffix Hid].
  { by rewrite list_lookup_fmap, Hi. }
  rewrite Hid in Heq. unfold new_todo_id in Heq.
  injection Heq as Heq.
  apply append_underscore_inj in Heq; [|apply occurs_pretty_nat..].
  apply (inj pretty) in Heq. lia.
Qed.

Lemma add_todo_item_fresh_id_witness :
  ∃ new_todo,
    todos (add_todo_item one_task_session "compare with peers" High None
             (Some ["T99"]) t1 t1)
    = todos one_task_session ++ [new_todo]
    ∧ TodoItem.id new_todo = new_todo_id one_task_session t1
    ∧ ∀ T, T ∈ todos one_task_session → TodoItem.id T ≠ TodoItem.id new_todo.
Proof.
  apply (add_todo_item_fresh_id one_task_session "compare with peers" High None
           (Some ["T99"]) t1 t1).
  apply (reachable_step fresh_session).
  - apply reachable_initial.
  - apply step_add_todo_item.
Defined.

(** ** The scenarios of the specification, run on the model *)

Example generated_ids :
  TodoItem.id <$> todos orphan_task_session = ["todo_1_144600"; "todo_2_144601"].
Proof. vm_compute. reflexivity. Qed.

Example orphan_scenario :
  (validate_state one_task_session).1 = []
  ∧ (validate_state orphan_task_session).1
    = ["TODO todo_2_144601 has orphaned dependency: T99"].
Proof. vm_compute. by split. Qed.

Example cache_scenario :
  (cache_financial_data fresh_session "AAPL" "price" price_payload 1 t0
     ≫= λ st1, (get_cached_financial_data st1 "AAPL" "price" t0).1)
  = Some price_payload
  ∧ (cache_financial_data fresh_session "AAPL" "price" price_payload 1 t0
       ≫= λ st1, (get_cached_financial_data st1 "AAPL" "price" (t0 + 60000000)).1)
    = None.
Proof. vm_compute. by split. Qed.

Example cache_overflow :
  cache_financial_data fresh_session "AAPL" "price" price_payload
    (10 ^ 12) t0 = None.
Proof. reflexivity. Qed.

(** ** The theorems at work on the sample sessions *)

Lemma write_file_replaces_entry_witness :
  files notes_session !! "notes.md" = Some notes_entry
  ∧ files (write_file notes_session "notes.md" "sell" Directory t1) !! "notes.md"
    = Some {| FileSystemItem.name := "notes.md";
              FileSystemItem.content := "sell";
              FileSystemItem.type := Directory;
              FileSystemItem.created_at := isoformat t1;
              FileSystemItem.updated_at := isoformat t1;
              FileSystemItem.size := 4;
              FileSystemItem.metadata := ∅ |}.
Proof.
  assert (files notes_session !! "notes.md" = Some notes_entry) as Hold
    by (vm_compute; reflexivity).
  split; [exact Hold|].
  exact (write_file_replaces_entry notes_session "notes.md" "sell" Directory t1
           notes_entry Hold).
Defined.

Lemma unknown_specialist_not_found_witness :
  let r := task delegation_world "unknown_agent" "x" in
  r.1 = NotFound "unknown_agent" ["stock_analyst"]
  ∧ invocations r.2 = []
  ∧ SUB_AGENTS r.2 = SUB_AGENTS delegation_world
  ∧ session r.2 = registered_session
  ∧ "unknown_agent" ∉ dict_keys (SUB_AGENTS r.2).
Proof.
  apply (unknown_specialist_not_found delegation_world "unknown_agent" "x").
  apply dict_get_None. reflexivity.
Defined.

Lemma validate_reports_orphan_witness :
  "TODO todo_2_144601 has orphaned dependency: T99"
  ∈ (validate_state orphan_task_session).1
  ∧ (validate_state orphan_task_session).2 = orphan_task_session.
Proof.
  apply (validate_reports_orphan orphan_task_session orphan_task "T99").
  - right. left.
  - left.
  - intros U HU.
    apply elem_of_cons in HU as [->|HU]; [vm_compute; discriminate|].
    apply elem_of_cons in HU as [->|HU]; [vm_compute; discriminate|].
    by apply elem_of_nil in HU.
Defined.

Lemma unknown_target_is_noop_witness :
  todos (update_todo_status one_task_session "todo_9_000000" TodoCompleted
           None t1)
  = todos one_task_session
  ∧ sub_agents (update_sub_agent_status registered_session "ghost"
                  AgentCompleted (Some buy_result) t1)
    = sub_agents registered_session.
Proof.
  split.
  - apply (proj1 (unknown_target_is_noop one_task_session)).
    intros todo Htodo.
    apply elem_of_cons in Htodo as [->|Htodo]; [vm_compute; discriminate|].
    by apply elem_of_nil in Htodo.
  - apply (proj2 (unknown_target_is_noop registered_session)).
    vm_compute. reflexivity.
Defined.

Lemma update_todo_status_frame_witness :
  ∃ pre T post T',
    todos one_task_session = pre ++ T :: post
    ∧ TodoItem.id T = "todo_1_144600"
    ∧ Forall (λ U, TodoItem.id U ≠ "todo_1_144600") pre
    ∧ todos (update_todo_status one_task_session "todo_1_144600"
               TodoCompleted (Some done_note) t1)
      = pre ++ T' :: post
    ∧ TodoItem.id T' = TodoItem.id T
    ∧ TodoItem.task T' = TodoItem.task T
    ∧ TodoItem.dependencies T' = TodoItem.dependencies T
    ∧ TodoItem.created_at T' = TodoItem.created_at T
    ∧ TodoItem.priority T' = TodoItem.priority T
    ∧ TodoItem.assigned_agent T' = TodoItem.assigned_agent T
    ∧ TodoItem.status T' = TodoCompleted
    ∧ TodoItem.updated_at T' = isoformat t1
    ∧ ∀ k, TodoItem.metadata T' !! k
           = match default ∅ (Some done_note) !! k with
             | Some v => Some v
             | None => TodoItem.metadata T !! k
             end.
Proof.
  apply (update_todo_status_frame one_task_session "todo_1_144600"
           TodoCompleted (Some done_note) t1).
  eexists. split; [left|]. vm_compute. reflexivity.
Defined.

(** * Further properties of the state module *)

(** ** What one call does to each collection *)

Lemma step_files_log st st' :
  step st st' →
  (files st' = files st ∧ file_operations_log st' = file_operations_log st)
  ∨ (∃ filename content file_type now,
       files st'
       = <[filename :=
             {| FileSystemItem.name := filename;
                FileSystemItem.content := content;
                FileSystemItem.type := file_type;
                FileSystemItem.created_at := isoformat now;
                FileSystemItem.updated_at := isoformat now;
                FileSystemItem.size := String.length content;
                FileSystemItem.metadata := ∅ |}]> (files st)
       ∧ file_operations_log st'
         = file_operations_log st
           ++ [OpWrite filename (isoformat now) (String.length content)])
  ∨ (∃ filename now,
       is_Some (files st !! filename)
       ∧ files st' = files st
       ∧ file_operations_log st'
         = file_operations_log st ++ [OpRead filename (isoformat now)]).
Proof.
  intros Hstep. destruct Hstep as [| | filename content file_type now
    | filename now | ? ? ? expiry_minutes now st' Hput | symbol data_type now
    | | agent_name ? ? ? |].
  - by left.
  - by left.
  - right; left. by exists filename, content, file_type, now.
  - unfold read_file. destruct (files st !! filename) as [item|] eqn:Hitem.
    + right; right. exists filename, now. by rewrite Hitem.
    + by left.
  - unfold cache_financial_data in Hput.
    destruct (add_minutes now expiry_minutes); [|done].
    injection Hput as <-. by left.
  - unfold get_cached_financial_data.
    destruct (financial_cache st !! _); [|by left].
    case_bool_decide; by left.
  - by left.
  - unfold update_sub_agent_status.
    destruct (sub_agents st !! agent_name); by left.
  - by left.
Qed.

Lemma step_todos st st' :
  step st st' →
  todos st' = todos st
  ∨ (∃ new_todo, todos st' = todos st ++ [new_todo])
  ∨ (∃ todo_id status metadata now,
       todos st' = update_first_match todo_id status metadata now (todos st)).
Proof.
  intros Hstep. destruct Hstep as [| todo_id status metadata now | | filename ?
    | ? ? ? expiry_minutes now st' Hput | | | agent_name ? ? ? |].
  - right; left. by eexists.
  - right; right. by exists todo_id, status, metadata, (isoformat now).
  - by left.
  - unfold read_file. destruct (files st !! filename); by left.
  - unfold cache_financial_data in Hput.
    destruct (add_minutes now expiry_minutes); [|done].
    injection Hput as <-. by left.
  - unfold get_cached_financial_data.
    destruct (financial_cache st !! _); [|by left].
    case_bool_decide; by left.
  - by left.
  - unfold update_sub_agent_status.
    destruct (sub_agents st !! agent_name); by left.
  - by left.
Qed.

Lemma step_sub_agents st st' :
  step st st' →
  sub_agents st' = sub_agents st
  ∨ (∃ name description tools now,
       sub_agents st'
       = <[name :=
             {| SubAgentInfo.name := name;
                SubAgentInfo.description := description;
                SubAgentInfo.tools := tools;
                SubAgentInfo.status := AgentIdle;
                SubAgentInfo.created_at := isoformat now;
                SubAgentInfo.last_active := isoformat now;
                SubAgentInfo.results := None |}]> (sub_agents st))
  ∨ (∃ agent_name status results now info,
       sub_agents st !! agent_name = Some info
       ∧ sub_agents st'
         = <[agent_name := apply_agent_update status results now info]>
             (sub_agents st)).
Proof.
  intros Hstep. destruct Hstep as [| | | filename ?
    | ? ? ? expiry_minutes now st' Hput | | name description tools now
    | agent_name status results now |].
  - by left.
  - by left.
  - by left.
  - unfold read_file. destruct (files st !! filename); by left.
  - unfold cache_financial_data in Hput.
    destruct (add_minutes now expiry_minutes); [|done].
    injection Hput as <-. by left.
  - unfold get_cached_financial_data.
    destruct (financial_cache st !! _); [|by left].
    case_bool_decide; by left.
  - right; left. by exists name, description, tools, now.
  - unfold update_sub_agent_status.
    destruct (sub_agents st !! agent_name) as [info|] eqn:Hinfo; [|by left].
    right; right. by exists agent_name, status, results, (isoformat now), info.
  - by left.
Qed.

Lemma step_financial_cache st st' :
  step st st' →
  financial_cache st' = financial_cache st
  ∨ (∃ symbol data_type data expiry_minutes now,
       in_datetime_range (now + expiry_minutes * 60000000) = true
       ∧ financial_cache st'
         = <[cache_key symbol data_type :=
               {| FinancialDataCache.symbol := symbol;
                  FinancialDataCache.data_type := data_type;
                  FinancialDataCache.data := data;
                  FinancialDataCache.timestamp := isoformat now;
                  FinancialDataCache.expiry :=
                    isoformat (now + expiry_minutes * 60000000) |}]>
             (financial_cache st))
  ∨ (∃ key, financial_cache st' = delete key (financial_cache st)).
Proof.
  intros Hstep. destruct Hstep as [| | | filename ?
    | symbol data_type data expiry_minutes now st' Hput | symbol data_type now
    | | agent_name ? ? ? |].
  - by left.
  - by left.
  - by left.
  - unfold read_file. destruct (files st !! filename); by left.
  - right; left. exists symbol, data_type, data, expiry_minutes, now.
    by apply cache_financial_data_Some.
  - unfold get_cached_financial_data.
    destruct (financial_cache st !! _); [|by left].
    case_bool_decide; [by left|]. right; right. by eexists.
  - by left.
  - unfold update_sub_agent_status.
    destruct (sub_agents st !! agent_name); by left.
  - by left.
Qed.

Lemma step_control st st' :
  step st st' →
  messages st' = messages st
  ∧ current_task st' = current_task st
  ∧ current_directory st' = current_directory st
  ∧ active_sub_agents st' = active_sub_agents st
  ∧ delegation_history st' = delegation_history st
  ∧ iteration_count st' = iteration_count st
  ∧ max_iterations st' = max_iterations st
  ∧ start_time st' = start_time st
  ∧ agent_status st' = agent_status st
  ∧ session_id st' = session_id st.
Proof.
  intros Hstep. destruct Hstep as [| | | filename ?
    | ? ? ? expiry_minutes now st' Hput | | | agent_name ? ? ? |];
    try done.
  - unfold read_file. by destruct (files st !! filename).
  - unfold cache_financial_data in Hput.
    destruct (add_minutes now expiry_minutes); [|done].
    by injection Hput as <-.
  - unfold get_cached_financial_data.
    destruct (financial_cache st !! _); [|done]. by case_bool_decide.
  - unfold update_sub_agent_status.
    by destruct (sub_agents st !! agent_name).
Qed.

(** ** The file store and its log *)

(** X1. Reading never changes the stored files nor any other collection:
    the answer is the content stored under the name, if any; a miss leaves
    the state identical, without a log record, and a hit appends exactly one
    read record. *)
Theorem read_file_nondestructive (st : DeepAgentState) (filename : string)
    (now : datetime) :
  let r := read_file st filename now in
  r.1 = FileSystemItem.content <$> files st !! filename
  ∧ files r.2 = files st
  ∧ todos r.2 = todos st
  ∧ financial_cache r.2 = financial_cache st
  ∧ sub_agents r.2 = sub_agents st
  ∧ last_activity r.2 = last_activity st
  ∧ (files st !! filename = None → r.2 = st)
  ∧ (is_Some (files st !! filename) →
     file_operations_log r.2
     = file_operations_log st ++ [OpRead filename (isoformat now)]).
Proof.
  intros r. subst r. unfold read_file.
  destruct (files st !! filename) as [item|]; simpl.
  - by repeat split.
  - by repeat split.
Qed.

Lemma read_file_nondestructive_witness :
  (read_file fresh_session "notes.md" t1).2 = fresh_session
  ∧ file_operations_log (read_file notes_session "notes.md" t1).2
    = file_operations_log notes_session ++ [OpRead "notes.md" (isoformat t1)].
Proof.
  split.
  - apply (read_file_nondestructive fresh_session "notes.md" t1). reflexivity.
  - apply (read_file_nondestructive notes_session "notes.md" t1).
    exists notes_entry. vm_compute. reflexivity.
Defined.

(** X2. Writing under one name leaves the entry of every other name as it
    was, appends exactly one record to the log, and touches neither the
    backlog, nor the cache, nor the registry. *)
Theorem write_file_frame (st : DeepAgentState) (filename content : string)
    (file_type : FileType) (now : datetime) :
  let st' := write_file st filename content file_type now in
  (∀ other, other ≠ filename → files st' !! other = files st !! other)
  ∧ file_operations_log st'
    = file_operations_log st
      ++ [OpWrite filename (isoformat now) (String.length content)]
  ∧ todos st' = todos st
  ∧ financial_cache st' = financial_cache st
  ∧ sub_agents st' = sub_agents st.
Proof.
  intros st'. subst st'. repeat split; try done.
  intros other Hother. rewrite files_write_file. by apply lookup_insert_ne.
Qed.

Lemma write_file_frame_witness :
  files (write_file notes_session "plan.md" "buy" File t1) !! "notes.md"
  = files notes_session !! "notes.md".
Proof.
  apply (write_file_frame notes_session "plan.md" "buy" File t1). done.
Defined.

(** X3. In every state a session reaches, each stored file is filed under
    its own name, its size is the length of its content, its creation and
    update times coincide, its metadata is empty, and the log holds the
    write record that produced it. *)
Theorem reachable_files_well_formed (st : DeepAgentState) (name : string)
    (item : FileSystemItem) :
  reachable st →
  files st !! name = Some item →
  FileSystemItem.name item = name
  ∧ FileSystemItem.size item = String.length (FileSystemItem.content item)
  ∧ FileSystemItem.created_at item = FileSystemItem.updated_at item
  ∧ FileSystemItem.metadata item = ∅
  ∧ OpWrite name (FileSystemItem.updated_at item) (FileSystemItem.size item)
    ∈ file_operations_log st.
Proof.
  intros Hreach. revert name item.
  induction Hreach as [|st st' _ IH Hstep]; intros name item Hitem.
  - simpl in Hitem. by rewrite lookup_empty in Hitem.
  - destruct (step_files_log st st' Hstep)
      as [[Hf Hl]|[(f & c & ty & now & Hf & Hl)|(f & now & _ & Hf & Hl)]];
      rewrite Hl; rewrite Hf in Hitem.
    + by apply IH.
    + destruct (decide (f = name)) as [->|Hne].
      * rewrite lookup_insert_eq in Hitem. injection Hitem as <-. simpl.
        repeat split. apply elem_of_app. right. by left.
      * rewrite lookup_insert_ne in Hitem by done.
        destruct (IH name item Hitem) as (? & ? & ? & ? & Hlog).
        repeat split; try done. apply elem_of_app. by left.
    + destruct (IH name item Hitem) as (? & ? & ? & ? & Hlog).
      repeat split; try done. apply elem_of_app. by left.
Qed.

Lemma reachable_notes_session : reachable notes_session.
Proof.
  apply (reachable_step fresh_session); [apply reachable_initial|].
  apply step_write_file.
Qed.

Lemma reachable_files_well_formed_witness :
  FileSystemItem.size notes_entry
  = String.length (FileSystemItem.content notes_entry)
  ∧ OpWrite "notes.md" (isoformat t0) 17 ∈ file_operations_log notes_session.
Proof.
  destruct (reachable_files_well_formed notes_session "notes.md" notes_entry
              reachable_notes_session)
    as (_ & Hsize & _ & _ & Hlog); [vm_compute; reflexivity|].
  split; [exact Hsize|exact Hlog].
Defined.

(** X4. In every state a session reaches, every record of the operation
    log, read or write, is about a file that is still stored. *)
Theorem reachable_log_names_stored_files (st : DeepAgentState)
    (op : FileOperation) :
  reachable st →
  op ∈ file_operations_log st →
  is_Some (files st !! op_filename op).
Proof.
  intros Hreach. revert op.
  induction Hreach as [|st st' _ IH Hstep]; intros op Hop.
  - simpl in Hop. by apply elem_of_nil in Hop.
  - destruct (step_files_log st st' Hstep)
      as [[Hf Hl]|[(f & c & ty & now & Hf & Hl)|(f & now & Hsome & Hf & Hl)]];
      rewrite Hf; rewrite Hl in Hop.
    + by apply IH.
    + apply elem_of_app in Hop as [Hop|Hop].
      * destruct (decide (f = op_filename op)) as [->|Hne].
        -- rewrite lookup_insert_eq. by eexists.
        -- rewrite lookup_insert_ne by done. by apply IH.
      * apply list_elem_of_singleton in Hop as ->. simpl.
        rewrite lookup_insert_eq. by eexists.
    + apply elem_of_app in Hop as [Hop|Hop]; [by apply IH|].
      by apply list_elem_of_singleton in Hop as ->.
Qed.

Lemma reachable_log_names_stored_files_witness :
  is_Some (files (read_file notes_session "notes.md" t1).2 !! "notes.md").
Proof.
  apply (reachable_log_names_stored_files
           (read_file notes_session "notes.md" t1).2
           (OpRead "notes.md" (isoformat t1))).
  - apply (reachable_step notes_session);
      [apply reachable_notes_session|apply step_read_file].
  - right. left.
Defined.

(** ** What a session never loses *)

Lemma todo_identity_update_first_match todo_id status metadata now
    (l : list TodoItem) :
  todo_identity <$> update_first_match todo_id status metadata now l
  = todo_identity <$> l.
Proof.
  induction l as [|todo rest IH]; [done|].
  cbn [update_first_match]. case_bool_decide; rewrite !fmap_cons; [done|].
  by rewrite IH.
Qed.

(** X5. The operation log is append-only: whatever calls are made, the log
    before them is an initial segment of the log after them. *)
Theorem log_append_only (st st' : DeepAgentState) :
  rtc step st st' →
  file_operations_log st `prefix_of` file_operations_log st'.
Proof.
  induction 1 as [st|st mid st' Hstep _ IH]; [done|].
  etrans; [|exact IH].
  destruct (step_files_log st mid Hstep)
    as [[_ ->]|[(? & ? & ? & ? & _ & ->)|(? & ? & _ & _ & ->)]];
    [done|by eexists..].
Qed.

Lemma log_append_only_witness :
  file_operations_log notes_session
  `prefix_of` file_operations_log (read_file notes_session "notes.md" t1).2.
Proof.
  apply log_append_only. apply rtc_once. apply step_read_file.
Defined.

(** X6. Files and registered specialists are never deleted: a name that is
    stored, respectively registered, stays so through any sequence of
    calls. *)
Theorem files_and_specialists_never_deleted (st st' : DeepAgentState) :
  rtc step st st' →
  dom (files st) ⊆ dom (files st')
  ∧ dom (sub_agents st) ⊆ dom (sub_agents st').
Proof.
  induction 1 as [st|st mid st' Hstep _ [IHf IHa]]; [done|].
  split.
  - etrans; [|exact IHf].
    destruct (step_files_log st mid Hstep)
      as [[-> _]|[(? & ? & ? & ? & -> & _)|(? & ? & _ & -> & _)]];
      [done| |done].
    rewrite dom_insert_L. set_solver.
  - etrans; [|exact IHa].
    destruct (step_sub_agents st mid Hstep)
      as [->|[(? & ? & ? & ? & ->)|(? & ? & ? & ? & ? & _ & ->)]];
      [done|rewrite dom_insert_L; set_solver..].
Qed.

Lemma files_and_specialists_never_deleted_witness :
  dom (files notes_session)
  ⊆ dom (files (write_file notes_session "plan.md" "buy" File t1))
  ∧ dom (sub_agents notes_session)
    ⊆ dom (sub_agents (write_file notes_session "plan.md" "buy" File t1)).
Proof.
  apply files_and_specialists_never_deleted.
  apply rtc_once. apply step_write_file.
Defined.

(** X7. Tasks are never removed, reordered or rewritten in their fixed
    part: through any sequence of calls, the ids, descriptions, dependency
    lists, creation times, priorities and assignees of the backlog before
    are an initial segment of those of the backlog after. *)
Theorem tasks_never_removed (st st' : DeepAgentState) :
  rtc step st st' →
  (todo_identity <$> todos st) `prefix_of` (todo_identity <$> todos st').
Proof.
  induction 1 as [st|st mid st' Hstep _ IH]; [done|].
  etrans; [|exact IH].
  destruct (step_todos st mid Hstep)
    as [->|[(new_todo & ->)|(? & ? & ? & ? & ->)]].
  - done.
  - rewrite fmap_app. by eexists.
  - by rewrite todo_identity_update_first_match.
Qed.

Lemma tasks_never_removed_witness :
  (todo_identity <$> todos one_task_session)
  `prefix_of`
  (todo_identity <$>
     todos (update_todo_status orphan_task_session "todo_1_144600"
              TodoCompleted (Some done_note) t2)).
Proof.
  apply tasks_never_removed.
  apply (rtc_l _ _ orphan_task_session); [apply step_add_todo_item|].
  apply rtc_once. apply step_update_todo_status.
Defined.

(** X8. In every state a session reaches, no two tasks of the backlog
    carry the same id. *)
Theorem reachable_ids_distinct (st : DeepAgentState) :
  reachable st → NoDup (TodoItem.id <$> todos st).
Proof.
  intros Hreach. apply NoDup_alt. intros i j x Hi Hj.
  destruct (reachable_ids_numbered st Hreach i x Hi) as [si Hxi].
  destruct (reachable_ids_numbered st Hreach j x Hj) as [sj Hxj].
  rewrite Hxi in Hxj. injection Hxj as Heq.
  apply append_underscore_inj in Heq; [|apply occurs_pretty_nat..].
  apply (inj pretty) in Heq. lia.
Qed.

Lemma reachable_orphan_task_session : reachable orphan_task_session.
Proof.
  apply (reachable_step one_task_session); [|apply step_add_todo_item].
  apply (reachable_step fresh_session); [apply reachable_initial|].
  apply step_add_todo_item.
Qed.

Lemma reachable_ids_distinct_witness :
  NoDup (TodoItem.id <$> todos orphan_task_session).
Proof.
  apply reachable_ids_distinct. apply reachable_orphan_task_session.
Defined.

(** ** Validation, in full *)

Lemma elem_of_validate_state (st : DeepAgentState) (s : string) :
  s ∈ (validate_state st).1 ↔
  (max_iterations st ≤ iteration_count st
   ∧ s = iteration_issue (iteration_count st) (max_iterations st))
  ∨ (∃ T dep_id,
       T ∈ todos st ∧ dep_id ∈ TodoItem.dependencies T
       ∧ (dep_id ∉ (TodoItem.id <$> todos st))
       ∧ s = orphan_issue (TodoItem.id T) dep_id)
  ∨ (∃ agent_name,
       agent_name ∈ active_sub_agents st
       ∧ sub_agents st !! agent_name = None
       ∧ s = inactive_issue agent_name).
Proof.
  unfold validate_state. cbn [fst].
  rewrite !elem_of_app, !elem_of_flat_map.
  assert (s ∈ (if bool_decide (iteration_count st >= max_iterations st)
               then [] ++ [iteration_issue (iteration_count st)
                             (max_iterations st)]
               else [])
          ↔ max_iterations st ≤ iteration_count st
            ∧ s = iteration_issue (iteration_count st) (max_iterations st))
    as ->.
  { case_bool_decide as Hge; simpl.
    - rewrite list_elem_of_singleton. split; [intros ->; split; [lia|done]|].
      by intros [_ ->].
    - split; [intros H; by apply elem_of_nil in H|]. intros [? _]. lia. }
  assert ((∃ x, x ∈ todos st
             ∧ s ∈ flat_map
                 (λ dep_id,
                    if bool_decide
                         (dep_id ∉ (list_to_set (TodoItem.id <$> todos st)
                                    : gset string))
                    then [orphan_issue (TodoItem.id x) dep_id] else [])
                 (TodoItem.dependencies x))
          ↔ ∃ T dep_id,
              T ∈ todos st ∧ dep_id ∈ TodoItem.dependencies T
              ∧ (dep_id ∉ (TodoItem.id <$> todos st))
              ∧ s = orphan_issue (TodoItem.id T) dep_id) as ->.
  { split.
    - intros (T & HT & Hs). apply elem_of_flat_map in Hs as (dep & Hdep & Hs).
      case_bool_decide as Hout; [|by apply elem_of_nil in Hs].
      apply list_elem_of_singleton in Hs as ->.
      rewrite elem_of_list_to_set in Hout. by exists T, dep.
    - intros (T & dep & HT & Hdep & Hout & ->). exists T. split; [done|].
      apply elem_of_flat_map. exists dep. split; [done|].
      rewrite bool_decide_eq_true_2; [by left|].
      by rewrite elem_of_list_to_set. }
  assert ((∃ x, x ∈ active_sub_agents st
             ∧ s ∈ match sub_agents st !! x with
                   | Some _ => []
                   | None => [inactive_issue x]
                   end)
          ↔ ∃ agent_name,
              agent_name ∈ active_sub_agents st
              ∧ sub_agents st !! agent_name = None
              ∧ s = inactive_issue agent_name) as ->.
  { split.
    - intros (a & Ha & Hs). destruct (sub_agents st !! a) eqn:Hreg;
        [by apply elem_of_nil in Hs|].
      apply list_elem_of_singleton in Hs as ->. by exists a.
    - intros (a & Ha & Hreg & ->). exists a. rewrite Hreg.
      split; [done|by left]. }
  tauto.
Qed.

(** X9. Validation reports nothing exactly when the iteration counter is
    below its ceiling, every dependency id of every task is the id of some
    task of the backlog, and every name listed as active is registered. *)
Theorem validate_state_clean_iff (st : DeepAgentState) :
  (validate_state st).1 = [] ↔
  iteration_count st < max_iterations st
  ∧ (∀ T dep_id,
       T ∈ todos st → dep_id ∈ TodoItem.dependencies T →
       ∃ U, U ∈ todos st ∧ TodoItem.id U = dep_id)
  ∧ (∀ agent_name,
       agent_name ∈ active_sub_agents st →
       is_Some (sub_agents st !! agent_name)).
Proof.
  split.
  - intros Hnil.
    assert (∀ s, ¬ s ∈ (validate_state st).1) as Hnone.
    { intros s. rewrite Hnil. apply not_elem_of_nil. }
    setoid_rewrite elem_of_validate_state in Hnone.
    split; [|split].
    + destruct (decide (iteration_count st < max_iterations st)); [done|].
      exfalso. eapply Hnone. left. split; [lia|done].
    + intros T dep HT Hdep.
      destruct (decide (dep ∈ TodoItem.id <$> todos st)) as [Hin|Hout].
      * apply list_elem_of_fmap in Hin as (U & -> & HU). by exists U.
      * exfalso. eapply Hnone. right; left. by exists T, dep.
    + intros a Ha. destruct (sub_agents st !! a) eqn:Hreg; [by eexists|].
      exfalso. eapply Hnone. right; right. by exists a.
  - intros (Hiter & Hdeps & Hactive).
    destruct (validate_state st).1 as [|s rest] eqn:Hissues; [done|].
    exfalso. assert (s ∈ (validate_state st).1) as Hs
      by (rewrite Hissues; left).
    apply elem_of_validate_state
      in Hs as [[Hge _]|[(T & dep & HT & Hdep & Hout & _)|(a & Ha & Hreg & _)]].
    + lia.
    + destruct (Hdeps T dep HT Hdep) as (U & HU & <-).
      apply Hout. apply list_elem_of_fmap. by exists U.
    + destruct (Hactive a Ha) as [? Hsome]. congruence.
Qed.

Lemma validate_state_clean_iff_witness :
  (validate_state one_task_session).1 = [].
Proof.
  apply validate_state_clean_iff. split; [|split].
  - vm_compute. reflexivity.
  - intros T dep HT Hdep.
    apply elem_of_cons in HT as [->|HT]; [|by apply elem_of_nil in HT].
    by apply elem_of_nil in Hdep.
  - intros a Ha. by apply elem_of_nil in Ha.
Defined.

(** X10. Validation reports nothing else: every issue returned is the
    iteration text, with the counter at or above the ceiling, or the orphan
    text of a task and one of its dependency ids that no task carries, or
    the text about a name listed as active and not registered. *)
Theorem validate_state_sound (st : DeepAgentState) (s : string) :
  s ∈ (validate_state st).1 →
  (max_iterations st ≤ iteration_count st
   ∧ s = "Iteration limit reached: " +:+ pretty (iteration_count st) +:+ "/"
         +:+ pretty (max_iterations st))
  ∨ (∃ T dep_id,
       T ∈ todos st ∧ dep_id ∈ TodoItem.dependencies T
       ∧ (∀ U, U ∈ todos st → TodoItem.id U ≠ dep_id)
       ∧ s = "TODO " +:+ TodoItem.id T +:+ " has orphaned dependency: "
             +:+ dep_id)
  ∨ (∃ agent_name,
       agent_name ∈ active_sub_agents st
       ∧ sub_agents st !! agent_name = None
       ∧ s = "Active sub-agent " +:+ agent_name
             +:+ " not found in sub_agents registry").
Proof.
  intros Hs.
  apply elem_of_validate_state
    in Hs as [?|[(T & dep & HT & Hdep & Hout & ->)|?]]; [by left| |by right; right].
  right; left. exists T, dep. repeat split; try done.
  intros U HU Heq. apply Hout. apply list_elem_of_fmap. by exists U.
Qed.

(** X11. Validation reports the two other inconsistencies whenever they
    hold: a counter at or above its ceiling, and a name listed as active
    that the registry does not hold. *)
Theorem validate_state_reports_limit_and_stale (st : DeepAgentState) :
  (max_iterations st ≤ iteration_count st →
   ("Iteration limit reached: " +:+ pretty (iteration_count st) +:+ "/"
    +:+ pretty (max_iterations st))
   ∈ (validate_state st).1)
  ∧ (∀ agent_name,
       agent_name ∈ active_sub_agents st →
       sub_agents st !! agent_name = None →
       ("Active sub-agent " +:+ agent_name
        +:+ " not found in sub_agents registry")
       ∈ (validate_state st).1).
Proof.
  split.
  - intros Hge. apply elem_of_validate_state. left. by split.
  - intros a Ha Hreg. apply elem_of_validate_state. right; right.
    exists a. by repeat split.
Qed.

Lemma validate_state_sound_witness :
  (max_iterations orphan_task_session ≤ iteration_count orphan_task_session
   ∧ orphan_issue "todo_2_144601" "T99"
     = iteration_issue (iteration_count orphan_task_session)
         (max_iterations orphan_task_session))
  ∨ (∃ T dep_id,
       T ∈ todos orphan_task_session ∧ dep_id ∈ TodoItem.dependencies T
       ∧ (∀ U, U ∈ todos orphan_task_session → TodoItem.id U ≠ dep_id)
       ∧ orphan_issue "todo_2_144601" "T99"
         = orphan_issue (TodoItem.id T) dep_id)
  ∨ (∃ agent_name,
       agent_name ∈ active_sub_agents orphan_task_session
       ∧ sub_agents orphan_task_session !! agent_name = None
       ∧ orphan_issue "todo_2_144601" "T99" = inactive_issue agent_name).
Proof.
  apply (validate_state_sound orphan_task_session
           (orphan_issue "todo_2_144601" "T99")).
  vm_compute. left.
Defined.

Lemma validate_state_reports_limit_and_stale_witness :
  "Iteration limit reached: 0/0" ∈ (validate_state capped_session).1
  ∧ "Active sub-agent risk_assessor not found in sub_agents registry"
    ∈ (validate_state stale_session).1.
Proof.
  split.
  - apply (proj1 (validate_state_reports_limit_and_stale capped_session)).
    vm_compute. discriminate.
  - apply (proj2 (validate_state_reports_limit_and_stale stale_session)
             "risk_assessor").
    + left.
    + reflexivity.
Defined.

Lemma flat_map_update_first_match {B : Type} (g : TodoItem → list B)
    todo_id status metadata now (l : list TodoItem) :
  (∀ T, g (apply_todo_update status metadata now T) = g T) →
  flat_map g (update_first_match todo_id status metadata now l) = flat_map g l.
Proof.
  intros Hg. induction l as [|todo rest IH]; [done|].
  cbn [update_first_match]. case_bool_decide; simpl; [by rewrite Hg|].
  by rewrite IH.
Qed.

Lemma validate_state_ext (st st' : DeepAgentState) :
  iteration_count st' = iteration_count st →
  max_iterations st' = max_iterations st →
  todos st' = todos st →
  active_sub_agents st' = active_sub_agents st →
  sub_agents st' = sub_agents st →
  (validate_state st').1 = (validate_state st).1.
Proof.
  intros Hi Hm Ht Ha Hs. unfold validate_state. cbn [fst].
  by rewrite Hi, Hm, Ht, Ha, Hs.
Qed.

(** X12. A status update, a file write or read, and a cache put or get
    neither create nor resolve a validation issue: validation returns the
    same list after the call as before it. *)
Theorem validation_unchanged_by_updates (st : DeepAgentState) (now : datetime) :
  (∀ todo_id status metadata,
     (validate_state (update_todo_status st todo_id status metadata now)).1
     = (validate_state st).1)
  ∧ (∀ filename content file_type,
       (validate_state (write_file st filename content file_type now)).1
       = (validate_state st).1)
  ∧ (∀ filename,
       (validate_state (read_file st filename now).2).1 = (validate_state st).1)
  ∧ (∀ symbol data_type,
       (validate_state (get_cached_financial_data st symbol data_type now).2).1
       = (validate_state st).1)
  ∧ (∀ symbol data_type data expiry_minutes st',
       cache_financial_data st symbol data_type data expiry_minutes now
       = Some st' →
       (validate_state st').1 = (validate_state st).1).
Proof.
  split; [|split; [|split; [|split]]].
  - intros todo_id status metadata.
    unfold validate_state, update_todo_status. cbn [fst]. simpl.
    rewrite update_first_match_ids.
    by rewrite flat_map_update_first_match.
  - intros. by apply validate_state_ext.
  - intros filename. apply validate_state_ext;
      unfold read_file; by destruct (files st !! filename).
  - intros symbol data_type. apply validate_state_ext;
      unfold get_cached_financial_data;
      (destruct (financial_cache st !! _); [|done]); by case_bool_decide.
  - intros symbol data_type data expiry_minutes st' Hput.
    unfold cache_financial_data in Hput.
    destruct (add_minutes now expiry_minutes); [|done].
    injection Hput as <-. by apply validate_state_ext.
Qed.

Lemma validation_unchanged_by_updates_witness :
  (validate_state (update_todo_status orphan_task_session "todo_2_144601"
                     TodoCompleted None t2)).1
  = (validate_state orphan_task_session).1
  ∧ (validate_state priced_session).1 = (validate_state fresh_session).1.
Proof.
  destruct (validation_unchanged_by_updates orphan_task_session t2)
    as (Hupdate & _).
  destruct (validation_unchanged_by_updates fresh_session t0)
    as (_ & _ & _ & _ & Hput).
  split; [apply Hupdate|].
  apply (Hput "AAPL" "price" price_payload 1). vm_compute. reflexivity.
Defined.

(** X13. Adding a task can only add issues about the new task's own
    dependencies: every issue reported after the call was reported before
    it, or is the orphan text of the new id and one of the dependency ids
    handed to the call.  A task added without dependencies adds none. *)
Theorem add_todo_item_new_issues (st : DeepAgentState) (task : string)
    (priority : Priority) (assigned_agent : option string)
    (dependencies : option (list string)) (now now_id : datetime) (s : string) :
  s ∈ (validate_state
         (add_todo_item st task priority assigned_agent dependencies
            now now_id)).1 →
  s ∈ (validate_state st).1
  ∨ ∃ dep_id,
      dep_id ∈ default [] dependencies
      ∧ s = "TODO " +:+ new_todo_id st now_id
            +:+ " has orphaned dependency: " +:+ dep_id.
Proof.
  rewrite !elem_of_validate_state. simpl.
  intros [Hiter|[(T & dep & HT & Hdep & Hout & ->)|Hstale]].
  - left. by left.
  - apply elem_of_app in HT as [HT|HT].
    + left. right; left. exists T, dep. repeat split; try done.
      intros Hin. apply Hout. rewrite fmap_app. apply elem_of_app. by left.
    + apply list_elem_of_singleton in HT as ->. simpl in *.
      right. by exists dep.
  - left. by right; right.
Qed.

Lemma add_todo_item_new_issues_witness :
  orphan_issue "todo_2_144601" "T99" ∈ (validate_state one_task_session).1
  ∨ ∃ dep_id,
      dep_id ∈ default [] (Some ["T99"])
      ∧ orphan_issue "todo_2_144601" "T99"
        = orphan_issue (new_todo_id one_task_session t1) dep_id.
Proof.
  apply (add_todo_item_new_issues one_task_session "compare with peers" High
           None (Some ["T99"]) t1 t1).
  vm_compute. left.
Defined.

(** X14. The functions of the state module never advance the iteration
    counter, never change the status of the session, and never list a
    specialist as active or name a current task: in every state a session
    reaches through them the counter is 0, the status is [initializing], no
    specialist is active, no task is current, the delegation history is
    empty and the only message is the initial one. *)
Theorem reachable_control_fields (st : DeepAgentState) :
  reachable st →
  iteration_count st = 0
  ∧ agent_status st = Initializing
  ∧ active_sub_agents st = []
  ∧ current_task st = None
  ∧ delegation_history st = []
  ∧ current_directory st = "/"
  ∧ ∃ user_message, messages st = [HumanMessage user_message].
Proof.
  induction 1 as [user_message|st st' _ IH Hstep].
  - repeat split. by exists user_message.
  - destruct (step_control st st' Hstep)
      as (-> & -> & -> & -> & -> & -> & _ & _ & -> & _).
    exact IH.
Qed.

Lemma reachable_control_fields_witness :
  iteration_count orphan_task_session = 0
  ∧ active_sub_agents orphan_task_session = [].
Proof.
  destruct (reachable_control_fields orphan_task_session
              reachable_orphan_task_session) as (Hcount & _ & Hactive & _).
  split; [exact Hcount|exact Hactive].
Defined.

(** X15. A freshly created session validates clean exactly when its
    iteration ceiling is positive; with a ceiling of zero or below, the
    iteration issue is reported from the start, and it is the only issue. *)
Theorem initial_state_validation (user_message : string)
    (session_id : option string) (max_iterations : Z) (now_id now : datetime) :
  (validate_state
     (create_initial_state user_message session_id max_iterations now_id now)).1
  = if bool_decide (max_iterations ≤ 0)
    then ["Iteration limit reached: 0/" +:+ pretty max_iterations]
    else [].
Proof.
  unfold validate_state. cbn [fst]. simpl.
  repeat case_bool_decide; try done; lia.
Qed.

(** ** The registry of specialists *)

(** X16. Registering a name stores a fresh idle record without result,
    whatever record the name had before (a re-registration discards the
    earlier status, result and creation time), and leaves the record of
    every other name and the other collections as they were. *)
Theorem register_sub_agent_overwrites (st : DeepAgentState)
    (name description : string) (tools : list string) (now : datetime) :
  let st' := register_sub_agent st name description tools now in
  sub_agents st' !! name
  = Some {| SubAgentInfo.name := name;
            SubAgentInfo.description := description;
            SubAgentInfo.tools := tools;
            SubAgentInfo.status := AgentIdle;
            SubAgentInfo.created_at := isoformat now;
            SubAgentInfo.last_active := isoformat now;
            SubAgentInfo.results := None |}
  ∧ (∀ other, other ≠ name → sub_agents st' !! other = sub_agents st !! other)
  ∧ todos st' = todos st
  ∧ files st' = files st
  ∧ file_operations_log st' = file_operations_log st
  ∧ financial_cache st' = financial_cache st.
Proof.
  intros st'. subst st'. unfold register_sub_agent. simpl.
  repeat split; [apply lookup_insert_eq|].
  intros other Hother. by apply lookup_insert_ne.
Qed.

Lemma register_sub_agent_overwrites_witness :
  SubAgentInfo.results <$>
    sub_agents
      (register_sub_agent
         (update_sub_agent_status registered_session "stock_analyst"
            AgentCompleted (Some buy_result) t1)
         "stock_analyst" "Individual stock analysis" [] t2) !! "stock_analyst"
  = Some None
  ∧ sub_agents
      (register_sub_agent registered_session "risk_assessor" "Risk" [] t1)
      !! "stock_analyst"
    = sub_agents registered_session !! "stock_analyst".
Proof.
  split.
  - rewrite (proj1 (register_sub_agent_overwrites
                      (update_sub_agent_status registered_session
                         "stock_analyst" AgentCompleted (Some buy_result) t1)
                      "stock_analyst" "Individual stock analysis" [] t2)).
    reflexivity.
  - apply (register_sub_agent_overwrites registered_session "risk_assessor"
             "Risk" [] t1). done.
Defined.

(** X17. Marking a registered specialist sets its status and last-active
    time and keeps its name, description, tools and creation time; the
    stored result is replaced only by a non-empty result, so a mark without
    result, or with an empty dictionary, keeps the result stored before.
    The record of every other name is left as it was. *)
Theorem update_sub_agent_status_registered (st : DeepAgentState)
    (agent_name : string) (status : SubAgentStatus) (results : option pydict)
    (now : datetime) (info : SubAgentInfo) :
  sub_agents st !! agent_name = Some info →
  let st' := update_sub_agent_status st agent_name status results now in
  (∃ info',
     sub_agents st' !! agent_name = Some info'
     ∧ SubAgentInfo.status info' = status
     ∧ SubAgentInfo.last_active info' = isoformat now
     ∧ SubAgentInfo.results info'
       = match results with
         | Some r => if bool_decide (r = ∅) then SubAgentInfo.results info
                     else Some r
         | None => SubAgentInfo.results info
         end
     ∧ SubAgentInfo.name info' = SubAgentInfo.name info
     ∧ SubAgentInfo.description info' = SubAgentInfo.description info
     ∧ SubAgentInfo.tools info' = SubAgentInfo.tools info
     ∧ SubAgentInfo.created_at info' = SubAgentInfo.created_at info)
  ∧ (∀ other, other ≠ agent_name →
       sub_agents st' !! other = sub_agents st !! other).
Proof.
  intros Hinfo st'. subst st'. split.
  - eexists. split; [by apply mark_registered|]. simpl.
    repeat split. destruct results as [r|]; [|done]. simpl.
    by case_bool_decide.
  - intros other Hother. unfold update_sub_agent_status. rewrite Hinfo. simpl.
    by apply lookup_insert_ne.
Qed.

Lemma update_sub_agent_status_registered_witness :
  ∃ info',
    sub_agents
      (update_sub_agent_status
         (update_sub_agent_status registered_session "stock_analyst"
            AgentCompleted (Some buy_result) t1)
         "stock_analyst" AgentIdle (Some ∅) t2) !! "stock_analyst"
    = Some info'
    ∧ SubAgentInfo.status info' = AgentIdle
    ∧ SubAgentInfo.results info' = Some buy_result.
Proof.
  destruct (update_sub_agent_status_registered
              (update_sub_agent_status registered_session "stock_analyst"
                 AgentCompleted (Some buy_result) t1)
              "stock_analyst" AgentIdle (Some ∅) t2
              {| SubAgentInfo.name := "stock_analyst";
                 SubAgentInfo.description := "Individual stock analysis";
                 SubAgentInfo.tools := ["get_stock_price"; "get_stock_history"];
                 SubAgentInfo.status := AgentCompleted;
                 SubAgentInfo.created_at := isoformat t0;
                 SubAgentInfo.last_active := isoformat t1;
                 SubAgentInfo.results := Some buy_result |})
    as [(info' & Hinfo' & Hstatus & _ & Hresults & _) _].
  { vm_compute. reflexivity. }
  exists info'. split; [exact Hinfo'|]. split; [exact Hstatus|].
  rewrite Hresults. simpl. by rewrite bool_decide_eq_true_2.
Defined.

(** X18. In every state a session reaches, each registry record is filed
    under its own name, and each cache entry is filed under the key joined
    from its own subject and kind, with an expiry inside the range of the
    date type that lies a whole number of minutes from its timestamp. *)
Theorem reachable_keys_consistent (st : DeepAgentState) :
  reachable st →
  (∀ name info,
     sub_agents st !! name = Some info → SubAgentInfo.name info = name)
  ∧ (∀ key entry,
       financial_cache st !! key = Some entry →
       key = cache_key (FinancialDataCache.symbol entry)
               (FinancialDataCache.data_type entry)
       ∧ in_datetime_range (FinancialDataCache.expiry entry) = true
       ∧ ∃ minutes,
           FinancialDataCache.expiry entry
           = FinancialDataCache.timestamp entry + minutes * 60000000).
Proof.
  induction 1 as [|st st' _ [IHa IHc] Hstep].
  - split; intros ? ? Hget; simpl in Hget; by rewrite lookup_empty in Hget.
  - split.
    + intros name info Hget.
      destruct (step_sub_agents st st' Hstep)
        as [Heq|[(n & d & tl & now & Heq)|(n & s & r & now & old & Hold & Heq)]];
        rewrite Heq in Hget; [by apply IHa|..].
      * destruct (decide (n = name)) as [->|Hne].
        -- rewrite lookup_insert_eq in Hget. by injection Hget as <-.
        -- rewrite lookup_insert_ne in Hget by done. by apply IHa.
      * destruct (decide (n = name)) as [->|Hne].
        -- rewrite lookup_insert_eq in Hget. injection Hget as <-. simpl.
           by apply IHa.
        -- rewrite lookup_insert_ne in Hget by done. by apply IHa.
    + intros key entry Hget.
      destruct (step_financial_cache st st' Hstep)
        as [Heq|[(sy & dt & d & m & now & Hrange & Heq)|(k & Heq)]];
        rewrite Heq in Hget; [by apply IHc|..].
      * destruct (decide (cache_key sy dt = key)) as [<-|Hne].
        -- rewrite lookup_insert_eq in Hget. injection Hget as <-. simpl.
           repeat split; [done|]. by exists m.
        -- rewrite lookup_insert_ne in Hget by done. by apply IHc.
      * apply lookup_delete_Some in Hget as [_ Hget]. by apply IHc.
Qed.

Lemma reachable_keys_consistent_witness :
  (∀ name info,
     sub_agents registered_session !! name = Some info →
     SubAgentInfo.name info = name)
  ∧ (∀ key entry,
       financial_cache registered_session !! key = Some entry →
       key = cache_key (FinancialDataCache.symbol entry)
               (FinancialDataCache.data_type entry)
       ∧ in_datetime_range (FinancialDataCache.expiry entry) = true
       ∧ ∃ minutes,
           FinancialDataCache.expiry entry
           = FinancialDataCache.timestamp entry + minutes * 60000000).
Proof.
  apply reachable_keys_consistent.
  apply (reachable_step fresh_session); [apply reachable_initial|].
  apply step_register_sub_agent.
Defined.

(** ** The cache *)

Lemma append_inv_head (p a b : string) : p +:+ a = p +:+ b → a = b.
Proof. induction p as [|c p IH]; simpl; [done|]. intros [= H]. by apply IH. Qed.

(** X19. Keys cannot collide when the subjects are free of underscores:
    two (subject, kind) pairs whose subjects contain no underscore and that
    are joined to the same key are the same pair. *)
Theorem cache_key_inj_without_underscore (symbol data_type symbol' data_type'
    : string) :
  occurs "_" symbol = false →
  occurs "_" symbol' = false →
  cache_key symbol data_type = cache_key symbol' data_type' →
  symbol = symbol' ∧ data_type = data_type'.
Proof.
  intros Hs Hs' Hkey. unfold cache_key in Hkey.
  pose proof (append_underscore_inj _ _ _ _ Hs Hs' Hkey) as ->.
  split; [done|].
  apply append_inv_head in Hkey. by apply (append_inv_head "_").
Qed.

Lemma cache_key_inj_without_underscore_witness :
  "AAPL" = "AAPL" ∧ "stock_price" = "stock_price".
Proof.
  apply (cache_key_inj_without_underscore "AAPL" "stock_price"
           "AAPL" "stock_price"); reflexivity.
Defined.

(** X20. A put with a time-to-live of zero or less is expired on arrival:
    every get of it at or after the time of the put returns absent and
    deletes the entry. *)
Theorem nonpositive_ttl_expired_on_arrival (st : DeepAgentState)
    (symbol data_type : string) (data : pydict) (ttl : Z) (now t : datetime)
    (st1 : DeepAgentState) :
  ttl ≤ 0 →
  cache_financial_data st symbol data_type data ttl now = Some st1 →
  now ≤ t →
  let r := get_cached_financial_data st1 symbol data_type t in
  r.1 = None ∧ financial_cache r.2 !! cache_key symbol data_type = None.
Proof.
  intros Httl Hput Ht r. subst r.
  apply cache_financial_data_Some in Hput as [_ Hcache].
  rewrite (get_cached_expired st1 symbol data_type t
             {| FinancialDataCache.symbol := symbol;
                FinancialDataCache.data_type := data_type;
                FinancialDataCache.data := data;
                FinancialDataCache.timestamp := isoformat now;
                FinancialDataCache.expiry :=
                  isoformat (now + ttl * 60000000) |});
    [|by rewrite Hcache, lookup_insert_eq
     |unfold fromisoformat, isoformat; simpl; lia].
  simpl. split; [done|apply lookup_delete_eq].
Qed.

Lemma nonpositive_ttl_expired_on_arrival_witness :
  (cache_financial_data fresh_session "AAPL" "price" price_payload 0 t0
     ≫= λ st1, (get_cached_financial_data st1 "AAPL" "price" t0).1) = None.
Proof.
  destruct (cache_financial_data fresh_session "AAPL" "price" price_payload 0 t0)
    as [st1|] eqn:Hput; [|done].
  simpl.
  apply (nonpositive_ttl_expired_on_arrival fresh_session "AAPL" "price"
           price_payload 0 t0 t0 st1); [lia|exact Hput|lia].
Defined.

(** X21. A get touches nothing but the entry under its own key: the entries
    under all other keys, the backlog, the files, the log, the registry and
    the last-activity time are as before.  A payload is returned only for a
    stored entry that has not expired, and returning one changes nothing at
    all. *)
Theorem get_cached_frame (st : DeepAgentState) (symbol data_type : string)
    (now : datetime) :
  let r := get_cached_financial_data st symbol data_type now in
  (∀ key, key ≠ cache_key symbol data_type →
          financial_cache r.2 !! key = financial_cache st !! key)
  ∧ todos r.2 = todos st
  ∧ files r.2 = files st
  ∧ file_operations_log r.2 = file_operations_log st
  ∧ sub_agents r.2 = sub_agents st
  ∧ last_activity r.2 = last_activity st
  ∧ (∀ data, r.1 = Some data →
       r.2 = st
       ∧ ∃ entry,
           financial_cache st !! cache_key symbol data_type = Some entry
           ∧ FinancialDataCache.data entry = data
           ∧ now < fromisoformat (FinancialDataCache.expiry entry)).
Proof.
  intros r. subst r. unfold get_cached_financial_data.
  destruct (financial_cache st !! cache_key symbol data_type)
    as [entry|] eqn:Hentry; [|by repeat split].
  case_bool_decide as Hnow; simpl.
  - do 6 (split; [done|]).
    intros d Hd. injection Hd as <-. split; [done|]. by exists entry.
  - split; [|by repeat split].
    intros key Hkey. by apply lookup_delete_ne.
Qed.

Lemma get_cached_frame_witness :
  (get_cached_financial_data priced_session "AAPL" "price" t1).2
  = priced_session.
Proof.
  destruct (get_cached_frame priced_session "AAPL" "price" t1)
    as (_ & _ & _ & _ & _ & _ & Hhit).
  apply (Hhit price_payload). vm_compute. reflexivity.
Defined.

(** X22. A second put for the same subject and kind replaces payload and
    expiry together: afterwards a get before the second expiry returns the
    second payload, and a get at or after the second expiry returns absent,
    even if the first put had been given a longer life. *)
Theorem second_put_wins (st st1 st2 : DeepAgentState)
    (symbol data_type : string) (data1 data2 : pydict) (ttl1 ttl2 : Z)
    (now1 now2 t : datetime) :
  cache_financial_data st symbol data_type data1 ttl1 now1 = Some st1 →
  cache_financial_data st1 symbol data_type data2 ttl2 now2 = Some st2 →
  (t < now2 + ttl2 * 60000000 →
   get_cached_financial_data st2 symbol data_type t = (Some data2, st2))
  ∧ (now2 + ttl2 * 60000000 ≤ t →
     (get_cached_financial_data st2 symbol data_type t).1 = None).
Proof.
  intros _ Hput2.
  apply cache_financial_data_Some in Hput2 as [_ Hcache].
  split; intros Ht.
  - rewrite (get_cached_fresh st2 symbol data_type t
               {| FinancialDataCache.symbol := symbol;
                  FinancialDataCache.data_type := data_type;
                  FinancialDataCache.data := data2;
                  FinancialDataCache.timestamp := isoformat now2;
                  FinancialDataCache.expiry :=
                    isoformat (now2 + ttl2 * 60000000) |});
      [done|by rewrite Hcache, lookup_insert_eq|done].
  - rewrite (get_cached_expired st2 symbol data_type t
               {| FinancialDataCache.symbol := symbol;
                  FinancialDataCache.data_type := data_type;
                  FinancialDataCache.data := data2;
                  FinancialDataCache.timestamp := isoformat now2;
                  FinancialDataCache.expiry :=
                    isoformat (now2 + ttl2 * 60000000) |});
      [done|by rewrite Hcache, lookup_insert_eq|done].
Qed.

Lemma second_put_wins_witness :
  (cache_financial_data priced_session "AAPL" "price" buy_result 0 t1
     ≫= λ st2, (get_cached_financial_data st2 "AAPL" "price" t1).1) = None.
Proof.
  destruct (cache_financial_data priced_session "AAPL" "price" buy_result 0 t1)
    as [st2|] eqn:Hput2; [|done].
  simpl.
  apply (second_put_wins fresh_session priced_session st2 "AAPL" "price"
           price_payload buy_result 1 0 t0 t1 t1 priced_session_put Hput2).
  lia.
Defined.

(** ** Summary and listing *)

Lemma filter_status_bound (l : list TodoItem) :
  (length (List.filter is_pending l) + length (List.filter is_in_progress l)
   ≤ length l)%nat.
Proof.
  induction l as [|todo rest IH]; simpl; [lia|].
  unfold is_pending at 1, is_in_progress at 1.
  destruct (TodoItem.status todo); simpl; lia.
Qed.

(** X23. In the summary of any state, the pending and the in-progress
    tasks together never outnumber the tasks. *)
Theorem summary_counts_bounded (st : DeepAgentState) :
  (StateSummary.pending_todos (get_state_summary st)
   + StateSummary.active_todos (get_state_summary st)
   ≤ StateSummary.todo_count (get_state_summary st))%nat.
Proof. apply filter_status_bound. Qed.

(** X24. How the summary follows the two growing operations.  Adding a
    task raises the task count and the pending count by one and leaves the
    in-progress count and the file count alone.  Writing a file raises the
    file count by one when the name is new and leaves it alone when the
    name is stored already; it leaves the task counts alone. *)
Theorem summary_after_growth (st : DeepAgentState) (now : datetime) :
  (∀ task priority assigned_agent dependencies now_id,
     let s := get_state_summary st in
     let s' := get_state_summary
                 (add_todo_item st task priority assigned_agent dependencies
                    now now_id) in
     StateSummary.todo_count s' = S (StateSummary.todo_count s)
     ∧ StateSummary.pending_todos s' = S (StateSummary.pending_todos s)
     ∧ StateSummary.active_todos s' = StateSummary.active_todos s
     ∧ StateSummary.file_count s' = StateSummary.file_count s)
  ∧ (∀ filename content file_type,
       let s := get_state_summary st in
       let s' := get_state_summary
                   (write_file st filename content file_type now) in
       StateSummary.file_count s'
       = match files st !! filename with
         | Some _ => StateSummary.file_count s
         | None => S (StateSummary.file_count s)
         end
       ∧ StateSummary.todo_count s' = StateSummary.todo_count s
       ∧ StateSummary.pending_todos s' = StateSummary.pending_todos s
       ∧ StateSummary.active_todos s' = StateSummary.active_todos s).
Proof.
  split.
  - intros. subst s s'. simpl.
    rewrite !List.filter_app, !length_app. simpl.
    repeat split; lia.
  - intros. subst s s'. simpl. split; [|done].
    destruct (files st !! filename) as [old|] eqn:Hold.
    + by apply map_size_insert_Some.
    + by apply map_size_insert_None.
Qed.

(** X25. The listing ignores its directory argument and names exactly the
    stored files, each once: a name is listed if and only if a file is
    stored under it, and the listing is as long as the file count of the
    summary.  (The order of the names is not represented.) *)
Theorem list_files_lists_all (st : DeepAgentState)
    (directory directory' : option string) (name : string) :
  list_files st directory = list_files st directory'
  ∧ (name ∈ list_files st directory ↔ is_Some (files st !! name))
  ∧ NoDup (list_files st directory)
  ∧ length (list_files st directory)
    = StateSummary.file_count (get_state_summary st).
Proof.
  unfold list_files. simpl. split; [done|]. split; [|split].
  - rewrite list_elem_of_fmap. split.
    + intros ([k item] & -> & Hin). apply elem_of_map_to_list in Hin.
      by exists item.
    + intros [item Hitem]. exists (name, item). split; [done|].
      by apply elem_of_map_to_list.
  - apply NoDup_fst_map_to_list.
  - rewrite length_fmap. apply length_map_to_list.
Qed.

(** ** Delegation, in full *)

(** X26. A delegation makes a single attempt: whatever the name and
    whatever the capability does, the capability of a registered name is
    invoked exactly once with the task description, nothing is invoked for
    an unregistered name, and neither the registry nor the session is
    modified. *)
Theorem task_single_attempt (w : World) (agent_name task_description : string) :
  let r := task w agent_name task_description in
  SUB_AGENTS r.2 = SUB_AGENTS w
  ∧ session r.2 = session w
  ∧ invocations r.2
    = invocations w
      ++ match dict_get agent_name (SUB_AGENTS w) with
         | Some _ => [(agent_name, task_description)]
         | None => []
         end.
Proof.
  intros r. subst r. unfold task.
  destruct (dict_get agent_name (SUB_AGENTS w)) as [sub_agent|]; simpl.
  - by destruct (sub_agent task_description).
  - by rewrite app_nil_r.
Qed.

(** X27. Failures come back as outcomes.  The not-found outcome is returned
    exactly for the names that are not registered.  For a registered name,
    an exception of the capability is returned as the error outcome with
    the text of the exception, and an answer whose list of messages is
    empty is returned as the error outcome of the failed index. *)
Theorem task_failures_are_outcomes (w : World)
    (agent_name task_description : string) :
  let r := task w agent_name task_description in
  ((∃ available, r.1 = NotFound agent_name available)
   ↔ agent_name ∉ dict_keys (SUB_AGENTS w))
  ∧ (∀ sub_agent e,
       dict_get agent_name (SUB_AGENTS w) = Some sub_agent →
       sub_agent task_description = Raised e →
       r.1 = TaskError agent_name e)
  ∧ (∀ sub_agent,
       dict_get agent_name (SUB_AGENTS w) = Some sub_agent →
       sub_agent task_description = Returned (ResultDict (Some [])) →
       r.1 = TaskError agent_name "list index out of range").
Proof.
  intros r. subst r. split; [|split].
  - rewrite <- dict_get_None. unfold task.
    destruct (dict_get agent_name (SUB_AGENTS w)) as [sub_agent|]; simpl.
    + split; [|done]. intros [available Hret].
      destruct (sub_agent task_description) as [[|[msgs|]]|]; simpl in Hret;
        try done.
      destruct (last msgs) as [m|]; [|done]. by destruct (content m).
    + split; [done|]. intros _. by eexists.
  - intros sub_agent e Hget Hraise.
    by rewrite (task_registered _ _ _ _ Hget), Hraise.
  - intros sub_agent Hget Hret.
    by rewrite (task_registered _ _ _ _ Hget), Hret.
Qed.

(** X28. A results outcome is never made up: whenever a delegation returns
    the results outcome with content [c], the name is registered and its
    capability answered with a non-empty list of messages whose last
    message carries the content [c]. *)
Theorem task_results_come_from_last_message (w : World)
    (agent_name task_description name c : string) :
  (task w agent_name task_description).1 = SubAgentResults name c →
  name = agent_name
  ∧ ∃ sub_agent msgs last_message,
      dict_get agent_name (SUB_AGENTS w) = Some sub_agent
      ∧ sub_agent task_description = Returned (ResultDict (Some msgs))
      ∧ last msgs = Some last_message
      ∧ content last_message = Some c.
Proof.
  unfold task.
  destruct (dict_get agent_name (SUB_AGENTS w)) as [sub_agent|]; [|done].
  destruct (sub_agent task_description) as [[|[msgs|]]|] eqn:Hret; simpl;
    try done.
  destruct (last msgs) as [m|] eqn:Hlast; [|done].
  destruct (content m) as [c'|] eqn:Hcontent; [|done].
  intros [= -> ->]. split; [done|]. by exists sub_agent, msgs, m.
Qed.

Lemma task_failures_are_outcomes_witness :
  (∃ available,
     (task delegation_world "unknown_agent" "x").1
     = NotFound "unknown_agent" available)
  ∧ (task (mkWorld [("stock_analyst", λ _, Raised "rate limited")]
             registered_session [])
       "stock_analyst" "analyze AAPL").1
    = TaskError "stock_analyst" "rate limited"
  ∧ (task (mkWorld [("stock_analyst", λ _, Returned (ResultDict (Some [])))]
             registered_session [])
       "stock_analyst" "analyze AAPL").1
    = TaskError "stock_analyst" "list index out of range".
Proof.
  split; [|split].
  - apply (task_failures_are_outcomes delegation_world "unknown_agent" "x").
    apply dict_get_None. reflexivity.
  - by apply (task_failures_are_outcomes
                (mkWorld [("stock_analyst", λ _, Raised "rate limited")]
                   registered_session [])
                "stock_analyst" "analyze AAPL")
      with (sub_agent := λ _, Raised "rate limited").
  - by apply (task_failures_are_outcomes
                (mkWorld
                   [("stock_analyst", λ _, Returned (ResultDict (Some [])))]
                   registered_session [])
                "stock_analyst" "analyze AAPL")
      with (sub_agent := λ _, Returned (ResultDict (Some []))).
Defined.

Lemma task_results_come_from_last_message_witness :
  "stock_analyst" = "stock_analyst"
  ∧ ∃ sub_agent msgs last_message,
      dict_get "stock_analyst" (SUB_AGENTS delegation_world) = Some sub_agent
      ∧ sub_agent "analyze AAPL" = Returned (ResultDict (Some msgs))
      ∧ last msgs = Some last_message
      ∧ content last_message = Some buy_answer.
Proof.
  apply (task_results_come_from_last_message delegation_world "stock_analyst"
           "analyze AAPL" "stock_analyst" buy_answer).
  reflexivity.
Defined.

(** ** Building the registry *)

Lemma dict_get_set_eq {V : Type} (key : string) (v : V) (d : list (string * V)) :
  dict_get key (dict_set key v d) = Some v.
Proof.
  induction d as [|[k x] rest IH]; simpl.
  - by rewrite bool_decide_eq_true_2.
  - case_bool_decide as Hk; simpl.
    + by rewrite bool_decide_eq_true_2.
    + by rewrite bool_decide_eq_false_2.
Qed.

Lemma dict_get_set_ne {V : Type} (key key' : string) (v : V)
    (d : list (string * V)) :
  key ≠ key' → dict_get key' (dict_set key v d) = dict_get key' d.
Proof.
  intros Hne. induction d as [|[k x] rest IH]; simpl.
  - by rewrite bool_decide_eq_false_2.
  - destruct (decide (k = key)) as [->|Hk].
    + rewrite (bool_decide_eq_true_2 (key = key)) by done. simpl.
      by rewrite bool_decide_eq_false_2.
    + rewrite (bool_decide_eq_false_2 (k = key)) by done. simpl.
      by rewrite IH.
Qed.

Lemma dict_keys_set {V : Type} (key : string) (v : V) (d : list (string * V)) :
  dict_keys (dict_set key v d)
  = if bool_decide (key ∈ dict_keys d) then dict_keys d
    else dict_keys d ++ [key].
Proof.
  unfold dict_keys. induction d as [|[k x] rest IH].
  - rewrite (bool_decide_eq_false_2 (key ∈ _)); [done|apply not_elem_of_nil].
  - cbn [dict_set]. destruct (decide (k = key)) as [->|Hk].
    + rewrite (bool_decide_eq_true_2 (key = key)) by done.
      rewrite !fmap_cons. cbn [fst].
      rewrite (bool_decide_eq_true_2 (key ∈ _)); [done|by left].
    + rewrite (bool_decide_eq_false_2 (k = key)) by done.
      rewrite !fmap_cons, IH. cbn [fst].
      destruct (decide (key ∈ rest.*1)) as [Hin|Hout].
      * rewrite !(bool_decide_eq_true_2 (key ∈ _)); [done|by right|done].
      * rewrite !(bool_decide_eq_false_2 (key ∈ _)); [done| |done].
        intros Hin. apply elem_of_cons in Hin as [->|?]; done.
Qed.

(** X29. After the four constructors have succeeded, each of the four
    names is registered with the agent its constructor built, whatever the
    registry held before; every other name is registered as before, and the
    session is untouched.  A delegation to any of the four names is then
    never answered with the not-found outcome. *)
Theorem initialize_sub_agents_registers_all (w : World)
    (a1 a2 a3 a4 : SubAgent) :
  let r := initialize_sub_agents w (Built a1) (Built a2) (Built a3) (Built a4) in
  r.1 = None
  ∧ dict_get "stock_analyst" (SUB_AGENTS r.2) = Some a1
  ∧ dict_get "portfolio_manager" (SUB_AGENTS r.2) = Some a2
  ∧ dict_get "risk_assessor" (SUB_AGENTS r.2) = Some a3
  ∧ dict_get "market_researcher" (SUB_AGENTS r.2) = Some a4
  ∧ (∀ other,
       other ∉ ["stock_analyst"; "portfolio_manager"; "risk_assessor";
                "market_researcher"] →
       dict_get other (SUB_AGENTS r.2) = dict_get other (SUB_AGENTS w))
  ∧ session r.2 = session w
  ∧ invocations r.2 = invocations w
  ∧ ∀ name task_description,
      name ∈ ["stock_analyst"; "portfolio_manager"; "risk_assessor";
              "market_researcher"] →
      ∀ available,
        (task r.2 name task_description).1 ≠ NotFound name available.
Proof.
  intros r. subst r. simpl.
  assert (dict_get "stock_analyst"
            (dict_set "market_researcher" a4
               (dict_set "risk_assessor" a3
                  (dict_set "portfolio_manager" a2
                     (dict_set "stock_analyst" a1 (SUB_AGENTS w)))))
          = Some a1) as H1.
  { rewrite !dict_get_set_ne by done. apply dict_get_set_eq. }
  assert (dict_get "portfolio_manager"
            (dict_set "market_researcher" a4
               (dict_set "risk_assessor" a3
                  (dict_set "portfolio_manager" a2
                     (dict_set "stock_analyst" a1 (SUB_AGENTS w)))))
          = Some a2) as H2.
  { rewrite !dict_get_set_ne by done. apply dict_get_set_eq. }
  assert (dict_get "risk_assessor"
            (dict_set "market_researcher" a4
               (dict_set "risk_assessor" a3
                  (dict_set "portfolio_manager" a2
                     (dict_set "stock_analyst" a1 (SUB_AGENTS w)))))
          = Some a3) as H3.
  { rewrite dict_get_set_ne by done. apply dict_get_set_eq. }
  assert (dict_get "market_researcher"
            (dict_set "market_researcher" a4
               (dict_set "risk_assessor" a3
                  (dict_set "portfolio_manager" a2
                     (dict_set "stock_analyst" a1 (SUB_AGENTS w)))))
          = Some a4) as H4 by apply dict_get_set_eq.
  do 5 (split; [done|]). split; [|split; [done|split; [done|]]].
  - intros other Hother.
    rewrite !not_elem_of_cons in Hother.
    destruct Hother as (? & ? & ? & ? & _).
    by rewrite !dict_get_set_ne.
  - intros name task_description Hname available. unfold task. simpl.
    rewrite !elem_of_cons in Hname.
    destruct Hname as [->|[->|[->|[->|Hname]]]];
      [rewrite H1|rewrite H2|rewrite H3|rewrite H4
      |by apply elem_of_nil in Hname];
      match goal with
      | |- context [match ?a task_description with _ => _ end] =>
          destruct (a task_description) as [[|[msgs|]]|]; simpl; try done;
          (destruct (last msgs) as [m|]; [|done]); by destruct (content m)
      end.
Qed.

(** X30. A failing constructor does not roll anything back.  The call
    re-raises the message of the first constructor that fails; a name is
    registered with its new agent exactly when its constructor and all the
    constructors before it succeeded, and every other name keeps what the
    registry held for it before the call. *)
Theorem initialize_sub_agents_no_rollback (w : World)
    (o1 o2 o3 o4 : BuildOutcome) :
  let r := initialize_sub_agents w o1 o2 o3 o4 in
  r.1 = match o1, o2, o3, o4 with
        | BuildFailed e, _, _, _ => Some e
        | Built _, BuildFailed e, _, _ => Some e
        | Built _, Built _, BuildFailed e, _ => Some e
        | Built _, Built _, Built _, BuildFailed e => Some e
        | Built _, Built _, Built _, Built _ => None
        end
  ∧ dict_get "stock_analyst" (SUB_AGENTS r.2)
    = match o1 with
      | Built a => Some a
      | _ => dict_get "stock_analyst" (SUB_AGENTS w)
      end
  ∧ dict_get "portfolio_manager" (SUB_AGENTS r.2)
    = match o1, o2 with
      | Built _, Built a => Some a
      | _, _ => dict_get "portfolio_manager" (SUB_AGENTS w)
      end
  ∧ dict_get "risk_assessor" (SUB_AGENTS r.2)
    = match o1, o2, o3 with
      | Built _, Built _, Built a => Some a
      | _, _, _ => dict_get "risk_assessor" (SUB_AGENTS w)
      end
  ∧ dict_get "market_researcher" (SUB_AGENTS r.2)
    = match o1, o2, o3, o4 with
      | Built _, Built _, Built _, Built a => Some a
      | _, _, _, _ => dict_get "market_researcher" (SUB_AGENTS w)
      end
  ∧ session r.2 = session w
  ∧ invocations r.2 = invocations w.
Proof.
  intros r. subst r.
  destruct o1 as [a1|e1]; [|done].
  destruct o2 as [a2|e2].
  2:{ simpl. rewrite dict_get_set_eq, !dict_get_set_ne by done. done. }
  destruct o3 as [a3|e3].
  2:{ simpl. rewrite !dict_get_set_eq.
      rewrite !(dict_get_set_ne "portfolio_manager") by done.
      rewrite dict_get_set_eq, !dict_get_set_ne by done. done. }
  destruct o4 as [a4|e4]; simpl.
  - rewrite !dict_get_set_eq.
    rewrite !(dict_get_set_ne "market_researcher") by done.
    rewrite !dict_get_set_eq.
    rewrite !(dict_get_set_ne "risk_assessor") by done.
    rewrite !dict_get_set_eq.
    rewrite !(dict_get_set_ne "portfolio_manager") by done.
    by rewrite dict_get_set_eq.
  - rewrite !dict_get_set_eq.
    rewrite !(dict_get_set_ne "risk_assessor") by done.
    rewrite !dict_get_set_eq.
    rewrite !(dict_get_set_ne "portfolio_manager") by done.
    rewrite dict_get_set_eq, !dict_get_set_ne by done. done.
Qed.

Lemma list_files_lists_all_witness :
  "notes.md" ∈ list_files notes_session None.
Proof.
  apply (list_files_lists_all notes_session None None "notes.md").
  exists notes_entry. vm_compute. reflexivity.
Defined.

Lemma initialize_sub_agents_registers_all_witness :
  (task (initialize_sub_agents (mkWorld [] fresh_session [])
           (Built stock_analyst) (Built stock_analyst)
           (Built stock_analyst) (Built stock_analyst)).2
     "risk_assessor" "stress test").1
  ≠ NotFound "risk_assessor" []
  ∧ dict_get "unknown_agent"
      (SUB_AGENTS
         (initialize_sub_agents (mkWorld [] fresh_session [])
            (Built stock_analyst) (Built stock_analyst)
            (Built stock_analyst) (Built stock_analyst)).2)
    = None.
Proof.
  destruct (initialize_sub_agents_registers_all (mkWorld [] fresh_session [])
              stock_analyst stock_analyst stock_analyst stock_analyst)
    as (_ & _ & _ & _ & _ & Hother & _ & _ & Hfound).
  split.
  - apply Hfound. right. right. left.
  - rewrite Hother; [reflexivity|].
    rewrite !not_elem_of_cons. repeat split; try done. apply not_elem_of_nil.
Defined.
